(** * pycel.excelutil: address resolution and the operator fix-up

    A shallow embedding of [src/pycel/excelutil.py].  Python values are
    embedded as a small sum type; a call that may raise returns an
    [outcome]; the diagnostic callback of the operator fix-up is a log that
    the call returns next to its result.  Text is ASCII: a [string] is the
    sequence of the code points of a Python [str], all below 128. *)

From Stdlib Require Import ZArith List String Ascii Bool Lia.
From Stdlib Require Import SpecFloat.
From Stdlib Require Import DecimalString DecimalPos.
Import ListNotations.

Open Scope string_scope.
Open Scope Z_scope.

(** ** Exceptions and results *)

Inductive exn : Set :=
| ZeroDivisionError
| TypeError
| ValueError
| OverflowError
| AssertionError
| AttributeError
| IndexError
| PyCelException.

(** The result of a Python call.  [Unmodelled] marks the few results of the
    Python runtime that this development does not define (the C library's
    [pow] on floats, printf-style [%] on text, the shortest [repr] of a
    float): nothing is claimed about them. *)
Inductive outcome (A : Type) : Type :=
| Returned (a : A)
| Raised (e : exn)
| Unmodelled.

Arguments Returned {A} a.
Arguments Raised {A} e.
Arguments Unmodelled {A}.

Definition bind {A B : Type} (m : outcome A) (k : A -> outcome B) : outcome B :=
  match m with
  | Returned a => k a
  | Raised e => Raised e
  | Unmodelled => Unmodelled
  end.

Declare Scope py_scope.
Delimit Scope py_scope with py.
Notation "x <- m ;; k" := (bind m (fun x => k))
  (at level 61, m at next level, right associativity) : py_scope.
Notation "' p <- m ;; k" := (bind m (fun x => match x with p => k end))
  (at level 61, p pattern, m at next level, right associativity) : py_scope.
Open Scope py_scope.

(** [try: m except e: h] for one exception class. *)
Definition except {A : Type} (m : outcome A) (e : exn) (h : outcome A) : outcome A :=
  match m with
  | Raised e' => if match e, e' with
                    | ZeroDivisionError, ZeroDivisionError
                    | TypeError, TypeError
                    | ValueError, ValueError
                    | OverflowError, OverflowError
                    | AssertionError, AssertionError
                    | AttributeError, AttributeError
                    | IndexError, IndexError
                    | PyCelException, PyCelException => true
                    | _, _ => false
                    end then h else m
  | _ => m
  end.

(** ** Characters and text *)

Module Text.

Definition code (c : ascii) : Z := Z.of_N (N_of_ascii c).

Definition between (lo hi : Z) (c : ascii) : bool :=
  (lo <=? code c) && (code c <=? hi).

Definition is_digit : ascii -> bool := between 48 57.
Definition is_upper : ascii -> bool := between 65 90.
Definition is_lower : ascii -> bool := between 97 122.
Definition is_alpha (c : ascii) : bool := is_upper c || is_lower c.

(** The ASCII characters for which [str.isspace] holds. *)
Definition is_space (c : ascii) : bool := between 9 13 c || between 28 32 c.

Definition digit_val (c : ascii) : Z := code c - 48.

Definition lower_char (c : ascii) : ascii :=
  if is_upper c then ascii_of_N (N_of_ascii c + 32) else c.
Definition upper_char (c : ascii) : ascii :=
  if is_lower c then ascii_of_N (N_of_ascii c - 32) else c.

Fixpoint map (f : ascii -> ascii) (s : string) : string :=
  match s with
  | "" => ""
  | String c s' => String (f c) (map f s')
  end.

(** [str.lower] and [str.upper]. *)
Definition lower : string -> string := map lower_char.
Definition upper : string -> string := map upper_char.

Fixpoint forallb (p : ascii -> bool) (s : string) : bool :=
  match s with
  | "" => true
  | String c s' => p c && forallb p s'
  end.

Fixpoint existsb (p : ascii -> bool) (s : string) : bool :=
  match s with
  | "" => false
  | String c s' => p c || existsb p s'
  end.

(** [c in s] for a one-character [c]. *)
Definition contains (c : ascii) (s : string) : bool := existsb (Ascii.eqb c) s.

Fixpoint rev_app (s acc : string) : string :=
  match s with
  | "" => acc
  | String c s' => rev_app s' (String c acc)
  end.
Definition rev (s : string) : string := rev_app s "".

Fixpoint lstrip (p : ascii -> bool) (s : string) : string :=
  match s with
  | "" => ""
  | String c s' => if p c then lstrip p s' else s
  end.
Definition rstrip (p : ascii -> bool) (s : string) : string :=
  rev (lstrip p (rev s)).

(** [str.strip()]. *)
Definition strip (s : string) : string := rstrip is_space (lstrip is_space s).

(** [s.startswith(t)], [s.endswith(t)]. *)
Definition startswith (s t : string) : bool := String.prefix t s.
Definition endswith (s t : string) : bool := String.prefix (rev t) (rev s).

(** [s[n:]] and [s[:-1]], [s[a:-1]] for non-negative [n], [a]. *)
Fixpoint drop (n : nat) (s : string) : string :=
  match n, s with
  | O, _ => s
  | S n', String _ s' => drop n' s'
  | S _, "" => ""
  end.
Fixpoint drop_last (s : string) : string :=
  match s with
  | "" => ""
  | String c "" => ""
  | String c s' => String c (drop_last s')
  end.

(** [s.split(c, maxsplit=1)]: the text before the first [c] and the text
    after it, when [c] occurs. *)
Fixpoint split_first (c : ascii) (s : string) : option (string * string) :=
  match s with
  | "" => None
  | String a s' =>
      if Ascii.eqb a c then Some ("", s')
      else match split_first c s' with
           | Some (l, r) => Some (String a l, r)
           | None => None
           end
  end.

(** [s.replace("''", "'")]: non-overlapping occurrences, left to right. *)
Fixpoint replace_doubled (q : ascii) (s : string) : string :=
  match s with
  | "" => ""
  | String a s' =>
      match s' with
      | String b s'' =>
          if Ascii.eqb a q && Ascii.eqb b q
          then String q (replace_doubled q s'')
          else String a (replace_doubled q s')
      | "" => s
      end
  end.

End Text.

(** ** Python's numbers *)

(** Python's [float]: IEEE 754 binary64, through the Standard Library's
    specification of floating-point arithmetic. *)
Module Float.

Definition prec : Z := 53.
Definition emax : Z := 1024.

Definition float : Set := spec_float.

Definition add : float -> float -> float := SFadd prec emax.
Definition sub : float -> float -> float := SFsub prec emax.
Definition mul : float -> float -> float := SFmul prec emax.
Definition div : float -> float -> float := SFdiv prec emax.
Definition compare : float -> float -> option comparison := SFcompare.

Definition is_zero (f : float) : bool :=
  match f with S754_zero _ => true | _ => false end.
Definition is_nan (f : float) : bool :=
  match f with S754_nan => true | _ => false end.

(** The float nearest to an integer (ties to even); an infinity past the
    largest finite float. *)
Definition of_Z (n : Z) : float := binary_normalize prec emax n 0 false.

(** The float nearest to [num / den], with the sign [s]. *)
Definition of_ratio (s : bool) (num den : positive) : float :=
  let '(q, e, l) := SFdiv_core_binary prec emax (Zpos num) 0 (Zpos den) 0 in
  binary_round_aux prec emax s q e l.

(** [float(n)] for an [int]. *)
Definition of_int (n : Z) : outcome float :=
  match of_Z n with
  | S754_infinity _ => Raised OverflowError
  | f => Returned f
  end.

(** [int(f)]: truncation towards zero. *)
Definition to_int (f : float) : outcome Z :=
  match f with
  | S754_zero _ => Returned 0
  | S754_infinity _ => Raised OverflowError
  | S754_nan => Raised ValueError
  | S754_finite s m e =>
      let a := Z.shiftl (Zpos m) e in
      Returned (if s then - a else a)
  end.

(** The exact comparison of an integer with a float; [None] for a NaN. *)
Definition compare_Z (n : Z) (f : float) : option comparison :=
  match f with
  | S754_zero _ => Some (n ?= 0)
  | S754_infinity s => Some (if s then Gt else Lt)
  | S754_nan => None
  | S754_finite s m e =>
      let v := if s then Zneg m else Zpos m in
      Some (if 0 <=? e then n ?= v * 2 ^ e else n * 2 ^ (- e) ?= v)
  end.

(** The float nearest to [m * 10 ^ e], with the sign [s]: what [float(text)]
    returns for a decimal literal. *)
Definition of_decimal (s : bool) (m : Z) (e : Z) : float :=
  match m with
  | Zpos p =>
      if 0 <=? e then binary_round prec emax s (p * Z.to_pos (10 ^ e)) 0
      else of_ratio s p (Z.to_pos (10 ^ (- e)))
  | _ => S754_zero s
  end.

End Float.

(** ** Numeric literals in text: [int(text)] and [float(text)] *)

Module Literal.
Import Text.

(** Underscores may group digits: each one stands between two digits and is
    dropped; [None] when one is misplaced. *)
Fixpoint drop_underscores (prev : ascii) (s : string) : option string :=
  match s with
  | "" => if Ascii.eqb prev "_" then None else Some ""
  | String c s' =>
      if Ascii.eqb c "_"
      then if is_digit prev then drop_underscores c s' else None
      else if Ascii.eqb prev "_" && negb (is_digit c) then None
           else option_map (String c) (drop_underscores c s')
  end.

(** The text stripped of surrounding white space and of its underscores. *)
Definition prepare (s : string) : option string :=
  drop_underscores zero (strip s).

(** A leading sign: [true] for a minus. *)
Definition sign (s : string) : bool * string :=
  match s with
  | String "-" s' => (true, s')
  | String "+" s' => (false, s')
  | _ => (false, s)
  end.

(** The value of a run of decimal digits, most significant first. *)
Fixpoint digits_value (acc : Z) (s : string) : Z :=
  match s with
  | "" => acc
  | String c s' => digits_value (10 * acc + digit_val c) s'
  end.

Definition all_digits (s : string) : bool :=
  negb (String.eqb s "") && forallb is_digit s.

(** [int(s)]; [None] stands for the [ValueError]. *)
Definition int_of_string (s : string) : option Z :=
  match prepare s with
  | None => None
  | Some t =>
      let '(neg, body) := sign t in
      if all_digits body
      then Some (if neg then - digits_value 0 body else digits_value 0 body)
      else None
  end.

(** The longest prefix of digits, and the rest. *)
Fixpoint span_digits (s : string) : string * string :=
  match s with
  | String c s' =>
      if is_digit c then let '(d, r) := span_digits s' in (String c d, r)
      else ("", s)
  | "" => ("", "")
  end.

(** An exponent part: [e] or [E], an optional sign, digits. *)
Definition exponent (s : string) : option Z :=
  match s with
  | "" => Some 0
  | String c s' =>
      if Ascii.eqb c "e" || Ascii.eqb c "E"
      then let '(neg, body) := sign s' in
           if all_digits body
           then Some (if neg then - digits_value 0 body else digits_value 0 body)
           else None
      else None
  end.

(** [float(s)]; [None] stands for the [ValueError]. *)
Definition float_of_string (s : string) : option Float.float :=
  match prepare s with
  | None => None
  | Some t =>
      let '(neg, body) := sign t in
      let name := lower body in
      if String.eqb name "inf" || String.eqb name "infinity"
      then Some (S754_infinity neg)
      else if String.eqb name "nan" then Some S754_nan
      else
        let '(ip, r) := span_digits body in
        let '(fp, r') := match r with
                         | String "." r1 => span_digits r1
                         | _ => ("", r)
                         end in
        if String.eqb ip "" && String.eqb fp "" then None
        else match exponent r' with
             | None => None
             | Some ex =>
                 Some (Float.of_decimal neg (digits_value 0 (ip ++ fp))
                         (ex - Z.of_nat (String.length fp)))
             end
  end.

(** [str(n)] for an [int]. *)
Definition string_of_int (n : Z) : string :=
  NilZero.string_of_int (Z.to_int n).

End Literal.

(** ** Python values and the functions of the [operator] module *)

Module Py.
Import Float.

(** The values a spreadsheet operand takes: [None], a [bool], an [int], a
    [float] or a [str]. *)
Inductive value : Set :=
| PyNone
| PyBool (b : bool)
| PyInt (n : Z)
| PyFloat (f : float)
| PyStr (s : string).

(** [isinstance(v, str)]. *)
Definition is_str (v : value) : bool :=
  match v with PyStr _ => true | _ => false end.

(** A [bool] is an [int] in arithmetic. *)
Inductive num : Set :=
| NInt (n : Z)
| NFloat (f : float).

Definition as_num (v : value) : option num :=
  match v with
  | PyBool b => Some (NInt (Z.b2z b))
  | PyInt n => Some (NInt n)
  | PyFloat f => Some (NFloat f)
  | _ => None
  end.

Definition as_int (v : value) : option Z :=
  match v with
  | PyBool b => Some (Z.b2z b)
  | PyInt n => Some n
  | _ => None
  end.

Definition to_float (x : num) : outcome float :=
  match x with
  | NInt n => of_int n
  | NFloat f => Returned f
  end.

(** Numbers compare by their exact values; [None] when a NaN is involved. *)
Definition num_compare (x y : num) : option comparison :=
  match x, y with
  | NInt a, NInt b => Some (a ?= b)
  | NInt a, NFloat g => compare_Z a g
  | NFloat f, NInt b => option_map CompOpp (compare_Z b f)
  | NFloat f, NFloat g => Float.compare f g
  end.

Definition holds (p : comparison -> bool) (c : option comparison) : bool :=
  match c with
  | Some r => p r
  | None => false
  end.

Definition is_Eq (c : comparison) : bool := match c with Eq => true | _ => false end.
Definition is_Lt (c : comparison) : bool := match c with Lt => true | _ => false end.
Definition is_Gt (c : comparison) : bool := match c with Gt => true | _ => false end.
Definition is_Le (c : comparison) : bool := negb (is_Gt c).
Definition is_Ge (c : comparison) : bool := negb (is_Lt c).

(** [a == b]: never raises; values of unrelated types are unequal. *)
Definition eq (a b : value) : bool :=
  match as_num a, as_num b with
  | Some x, Some y => holds is_Eq (num_compare x y)
  | _, _ =>
      match a, b with
      | PyStr s, PyStr t => String.eqb s t
      | PyNone, PyNone => true
      | _, _ => false
      end
  end.

(** [a < b] and the like: numbers with numbers, text with text. *)
Definition order (p : comparison -> bool) (a b : value) : outcome value :=
  match as_num a, as_num b with
  | Some x, Some y => Returned (PyBool (holds p (num_compare x y)))
  | _, _ =>
      match a, b with
      | PyStr s, PyStr t => Returned (PyBool (p (String.compare s t)))
      | _, _ => Raised TypeError
      end
  end.

(** Arithmetic on two numbers: on integers when both are, on floats
    otherwise. *)
Definition arith (fi : Z -> Z -> outcome value)
    (ff : float -> float -> outcome value) (x y : num) : outcome value :=
  match x, y with
  | NInt a, NInt b => fi a b
  | _, _ => f <- to_float x ;; g <- to_float y ;; ff f g
  end.

Definition numeric (fi : Z -> Z -> outcome value)
    (ff : float -> float -> outcome value) (a b : value) : outcome value :=
  match as_num a, as_num b with
  | Some x, Some y => arith fi ff x y
  | _, _ => Raised TypeError
  end.

Fixpoint repeat_string (n : nat) (s : string) : string :=
  match n with
  | O => ""
  | S n' => s ++ repeat_string n' s
  end.

Definition add (a b : value) : outcome value :=
  match a, b with
  | PyStr s, PyStr t => Returned (PyStr (s ++ t))
  | _, _ =>
      numeric (fun x y => Returned (PyInt (x + y)))
              (fun f g => Returned (PyFloat (Float.add f g))) a b
  end.

Definition sub : value -> value -> outcome value :=
  numeric (fun x y => Returned (PyInt (x - y)))
          (fun f g => Returned (PyFloat (Float.sub f g))).

Definition mul (a b : value) : outcome value :=
  match a, as_int b, as_int a, b with
  | PyStr s, Some n, _, _ => Returned (PyStr (repeat_string (Z.to_nat n) s))
  | _, _, Some n, PyStr s => Returned (PyStr (repeat_string (Z.to_nat n) s))
  | _, _, _, _ =>
      numeric (fun x y => Returned (PyInt (x * y)))
              (fun f g => Returned (PyFloat (Float.mul f g))) a b
  end.

(** [a / b] on integers: the float nearest to the quotient. *)
Definition int_truediv (a b : Z) : outcome value :=
  match b with
  | 0 => Raised ZeroDivisionError
  | _ =>
      match a with
      | 0 => Returned (PyFloat (S754_zero (b <? 0)))
      | _ =>
          match of_ratio (xorb (a <? 0) (b <? 0))
                         (Z.to_pos (Z.abs a)) (Z.to_pos (Z.abs b)) with
          | S754_infinity _ => Raised OverflowError
          | f => Returned (PyFloat f)
          end
      end
  end.

Definition truediv : value -> value -> outcome value :=
  numeric int_truediv
          (fun f g => if is_zero g then Raised ZeroDivisionError
                      else Returned (PyFloat (Float.div f g))).

(** [a // b] and [a % b]: floor division on integers; on floats only the
    fault of a zero divisor is defined here. *)
Definition floordiv : value -> value -> outcome value :=
  numeric (fun x y => if y =? 0 then Raised ZeroDivisionError
                      else Returned (PyInt (x / y)))
          (fun f g => if is_zero g then Raised ZeroDivisionError
                      else Unmodelled).

Definition mod_ (a b : value) : outcome value :=
  match a with
  | PyStr _ => Unmodelled
  | _ =>
      numeric (fun x y => if y =? 0 then Raised ZeroDivisionError
                          else Returned (PyInt (x mod y)))
              (fun f g => if is_zero g then Raised ZeroDivisionError
                          else Unmodelled) a b
  end.

(** [a ** b]: exact on integers with a non-negative exponent; on floats the
    exponent zero and the fault of a zero base with a negative finite
    exponent are defined here. *)
Definition float_pow (f g : float) : outcome value :=
  if is_zero g then Returned (PyFloat (of_Z 1))
  else match f, g with
       | S754_zero _, S754_finite true _ _ => Raised ZeroDivisionError
       | _, _ => Unmodelled
       end.

Definition pow : value -> value -> outcome value :=
  numeric (fun x y => if 0 <=? y then Returned (PyInt (x ^ y))
                      else if x =? 0 then Raised ZeroDivisionError
                      else Unmodelled)
          float_pow.

(** Shifts and bitwise operators are defined on [int] and [bool] only. *)
Definition integral (fi : Z -> Z -> outcome value) (a b : value) : outcome value :=
  match as_int a, as_int b with
  | Some x, Some y => fi x y
  | _, _ => Raised TypeError
  end.

Definition lshift : value -> value -> outcome value :=
  integral (fun x y => if y <? 0 then Raised ValueError
                       else Returned (PyInt (Z.shiftl x y))).
Definition rshift : value -> value -> outcome value :=
  integral (fun x y => if y <? 0 then Raised ValueError
                       else Returned (PyInt (Z.shiftr x y))).

Definition bitwise (fb : bool -> bool -> bool) (fi : Z -> Z -> Z)
    (a b : value) : outcome value :=
  match a, b with
  | PyBool x, PyBool y => Returned (PyBool (fb x y))
  | _, _ => integral (fun x y => Returned (PyInt (fi x y))) a b
  end.

Definition or_ : value -> value -> outcome value := bitwise orb Z.lor.
Definition xor : value -> value -> outcome value := bitwise xorb Z.lxor.
Definition and_ : value -> value -> outcome value := bitwise andb Z.land.

(** [a @ b]: none of these types defines it. *)
Definition matmul (a b : value) : outcome value := Raised TypeError.

(** [float(v)] and [int(v)] for any value. *)
Definition float_of (v : value) : outcome float :=
  match v with
  | PyNone => Raised TypeError
  | PyBool b => of_int (Z.b2z b)
  | PyInt n => of_int n
  | PyFloat f => Returned f
  | PyStr s =>
      match Literal.float_of_string s with
      | Some f => Returned f
      | None => Raised ValueError
      end
  end.

Definition int_of (v : value) : outcome Z :=
  match v with
  | PyNone => Raised TypeError
  | PyBool b => Returned (Z.b2z b)
  | PyInt n => Returned n
  | PyFloat f => to_int f
  | PyStr s =>
      match Literal.int_of_string s with
      | Some n => Returned n
      | None => Raised ValueError
      end
  end.

(** [str(v)]; of a float only the names of the infinities and of NaN. *)
Definition str (v : value) : outcome string :=
  match v with
  | PyNone => Returned "None"
  | PyBool true => Returned "True"
  | PyBool false => Returned "False"
  | PyInt n => Returned (Literal.string_of_int n)
  | PyFloat (S754_infinity false) => Returned "inf"
  | PyFloat (S754_infinity true) => Returned "-inf"
  | PyFloat S754_nan => Returned "nan"
  | PyFloat _ => Unmodelled
  | PyStr s => Returned s
  end.

End Py.

(** * The operator fix-up *)

Import Py.

Definition DIV0 : string := "#DIV/0!".
Definition VALUE_ERROR : string := "#VALUE!".

(** The keys of [PYTHON_AST_OPERATORS]. *)
Inductive ast_op : Set :=
| op_Eq | op_Lt | op_Gt | op_LtE | op_GtE | op_NotEq
| op_Add | op_Sub | op_Mult | op_Div | op_FloorDiv | op_Mod | op_Pow
| op_LShift | op_RShift | op_BitOr | op_BitXor | op_BitAnd | op_MatMult.

Definition PYTHON_AST_OPERATORS (op : ast_op) : value -> value -> outcome value :=
  match op with
  | op_Eq => fun a b => Returned (PyBool (Py.eq a b))
  | op_Lt => Py.order is_Lt
  | op_Gt => Py.order is_Gt
  | op_LtE => Py.order is_Le
  | op_GtE => Py.order is_Ge
  | op_NotEq => fun a b => Returned (PyBool (negb (Py.eq a b)))
  | op_Add => Py.add
  | op_Sub => Py.sub
  | op_Mult => Py.mul
  | op_Div => Py.truediv
  | op_FloorDiv => Py.floordiv
  | op_Mod => Py.mod_
  | op_Pow => Py.pow
  | op_LShift => Py.lshift
  | op_RShift => Py.rshift
  | op_BitOr => Py.or_
  | op_BitXor => Py.xor
  | op_BitAnd => Py.and_
  | op_MatMult => Py.matmul
  end.

(** [try: m except (ValueError, TypeError): h]. *)
Definition except_value_type {A : Type} (m h : outcome A) : outcome A :=
  except (except m ValueError h) TypeError h.

Definition is_number (s : value) : outcome bool :=
  except_value_type (_ <- float_of s ;; Returned true) (Returned false).

Definition coerce_to_number (v : value) : outcome value :=
  match v with
  | PyStr s =>
      (* the first [try]: [Some] when it returned, [None] when it fell through *)
      r <- except_value_type
             (if String.eqb s DIV0
              then q <- Py.truediv (PyInt 1) (PyInt 0) ;; Returned (Some q)
              else if negb (Text.contains "." s)
                   then n <- int_of v ;; Returned (Some (PyInt n))
                   else Returned None)
             (Returned None) ;;
      match r with
      | Some x => Returned x
      | None =>
          except_value_type (f <- float_of v ;; Returned (PyFloat f)) (Returned v)
      end
  | _ =>
      isn <- is_number v ;;
      if isn
      then i <- int_of v ;;
           f <- float_of v ;;
           if Py.eq (PyInt i) (PyFloat f)
           then i' <- int_of v ;; Returned (PyInt i')
           else Returned v
      else Returned v
  end.

(** What [capture_error_state(raised, message)] receives: the flag, and the
    values the message is formatted from. *)
Inductive message : Set :=
| CannotMultiply (left_op right_op : value)
| Values (left_op : value) (op : ast_op) (right_op : value).

Record diagnostic : Set := { raised : bool; msg : message }.

(** [v in (None, '#EMPTY!')]. *)
Definition is_blank (v : value) : bool :=
  Py.eq v PyNone || Py.eq v (PyStr "#EMPTY!").

(** The two substitutions for blank operands, the right one seeing the left
    one's result. *)
Definition fixup_blanks (left_op right_op : value) : value * value :=
  let left_op :=
    if is_blank left_op
    then if negb (is_str right_op) || Py.eq right_op (PyStr "#EMPTY!")
         then PyInt 0 else PyStr ""
    else left_op in
  let right_op :=
    if is_blank right_op
    then if negb (is_str left_op) || Py.eq left_op (PyStr "#EMPTY!")
         then PyInt 0 else PyStr ""
    else right_op in
  (left_op, right_op).

(** The operator-specific treatment of the operands; text join becomes an
    addition of texts. *)
Definition fixup_operands (left_op : value) (op : ast_op) (right_op : value)
  : outcome (value * ast_op * value) :=
  match op with
  | op_Eq | op_NotEq =>
      match left_op, right_op with
      | PyStr l, PyStr r =>
          Returned (PyStr (Text.lower l), op, PyStr (Text.lower r))
      | _, _ => Returned (left_op, op, right_op)
      end
  | op_BitAnd =>
      l <- coerce_to_number left_op ;;
      l <- Py.str l ;;
      r <- coerce_to_number right_op ;;
      r <- Py.str r ;;
      Returned (PyStr l, op_Add, PyStr r)
  | _ =>
      l <- coerce_to_number left_op ;;
      r <- coerce_to_number right_op ;;
      Returned (l, op, r)
  end.

(** The guarded call of the primitive. *)
Definition fixup_dispatch (left_op : value) (op : ast_op) (right_op : value)
  : outcome value * list diagnostic :=
  match PYTHON_AST_OPERATORS op left_op right_op with
  | Raised ZeroDivisionError =>
      (Returned (PyStr DIV0),
       [{| raised := true; msg := Values left_op op right_op |}])
  | Raised TypeError =>
      (Returned (PyStr VALUE_ERROR),
       [{| raised := true; msg := Values left_op op right_op |}])
  | r => (r, [])
  end.

(** [build_operator_operand_fixup(capture_error_state)]: the returned
    [fixup], with the calls of [capture_error_state] as a list. *)
Definition fixup (left_op : value) (op : ast_op) (right_op : value)
  : outcome value * list diagnostic :=
  if Py.eq (PyStr DIV0) left_op || Py.eq (PyStr DIV0) right_op
  then (Returned (PyStr DIV0), [])
  else if Py.eq (PyStr VALUE_ERROR) left_op || Py.eq (PyStr VALUE_ERROR) right_op
  then (Returned (PyStr VALUE_ERROR), [])
  else
    let '(left_op, right_op) := fixup_blanks left_op right_op in
    match fixup_operands left_op op right_op with
    | Returned (left_op, op, right_op) =>
        if match op with op_Mult => is_str left_op || is_str right_op | _ => false end
        then (Returned (PyStr VALUE_ERROR),
              [{| raised := false; msg := CannotMultiply left_op right_op |}])
        else fixup_dispatch left_op op right_op
    | Raised e => (Raised e, [])
    | Unmodelled => (Unmodelled, [])
    end.

(** * Regular expressions *)

(** The patterns of the module are matched as Python's [re] matches them:
    by backtracking, leftmost alternative and longest repetition first, a
    group holding the text of its last successful match. *)
Module Re.

Inductive regex : Type :=
| Empty
| Char (p : ascii -> bool)
| Seq (r1 r2 : regex)
| Alt (r1 r2 : regex)
| Star (r : regex)
| Group (name : string) (r : regex)
| Bol
| Eol.

Definition captures : Type := list (string * string).

(** A continuation receives the offset reached, the text left and the
    groups captured so far. *)
Definition cont : Type := nat -> string -> captures -> option captures.

Definition newline : ascii := ascii_of_nat 10.

(** The text between two points of a match, each given by the text left
    there. *)
Definition consumed (s s' : string) : string :=
  String.substring 0 (String.length s - String.length s') s.

(** Greedy repetition of [body]: one more round when it consumed
    something, else the continuation; [n] bounds the rounds. *)
Fixpoint star_loop
    (body : nat -> string -> captures -> cont -> option captures) (k : cont)
    (n : nat) (pos : nat) (s : string) (caps : captures) {struct n}
  : option captures :=
  match body pos s caps
          (fun pos' s' caps' =>
             match n with
             | O => None
             | S n' =>
                 if (String.length s' <? String.length s)%nat
                 then star_loop body k n' pos' s' caps'
                 else None
             end) with
  | Some c => Some c
  | None => k pos s caps
  end.

Fixpoint run (r : regex) (pos : nat) (s : string) (caps : captures) (k : cont)
    {struct r} : option captures :=
  match r with
  | Empty => k pos s caps
  | Char p =>
      match s with
      | String c s' => if p c then k (S pos) s' caps else None
      | "" => None
      end
  | Seq r1 r2 =>
      run r1 pos s caps (fun pos' s' caps' => run r2 pos' s' caps' k)
  | Alt r1 r2 =>
      match run r1 pos s caps k with
      | Some c => Some c
      | None => run r2 pos s caps k
      end
  | Star r' => star_loop (run r') k (String.length s) pos s caps
  | Group name r' =>
      run r' pos s caps
        (fun pos' s' caps' => k pos' s' ((name, consumed s s') :: caps'))
  | Bol => match pos with O => k pos s caps | _ => None end
  | Eol =>
      if String.eqb s "" || String.eqb s (String newline "")
      then k pos s caps else None
  end.

(** [re.match(w)]: the groups of the match, if any. *)
Definition rmatch (r : regex) (w : string) : option captures :=
  run r 0%nat w [] (fun _ _ caps => Some caps).

(** [m.group(name)]: [None] for a group that took no part in the match. *)
Fixpoint group (name : string) (caps : captures) : option string :=
  match caps with
  | [] => None
  | (n, v) :: caps' => if String.eqb n name then Some v else group name caps'
  end.

Definition lit (c : ascii) : regex := Char (Ascii.eqb c).
Definition opt (r : regex) : regex := Alt r Empty.
Definition plus (r : regex) : regex := Seq r (Star r).
Definition digit : regex := Char Text.is_digit.
Definition any : regex := Char (fun c => negb (Ascii.eqb c newline)).
Definition none_of (c : ascii) : regex := Char (fun a => negb (Ascii.eqb a c)).

Fixpoint seq (rs : list regex) : regex :=
  match rs with
  | [] => Empty
  | [r] => r
  | r :: rs' => Seq r (seq rs')
  end.

End Re.

Import Re.

(** [R(\[-?\d+\]|\d+)?] and [C(\[-?\d+\]|\d+)?]. *)
Definition R1C1_component (letter : ascii) : regex :=
  Seq (lit letter)
      (opt (Alt (seq [lit "["; opt (lit "-"); plus digit; lit "]"])
                (plus digit))).
Definition R1C1_ROW_RE : regex := R1C1_component "R".
Definition R1C1_COL_RE : regex := R1C1_component "C".

Definition R1C1_RANGE_RE : regex :=
  seq [Bol;
       opt (Group "min_row" R1C1_ROW_RE);
       opt (Group "min_col" R1C1_COL_RE);
       opt (seq [lit ":";
                 opt (Group "max_row" R1C1_ROW_RE);
                 opt (Group "max_col" R1C1_COL_RE)]);
       Eol].

(** A table name of one or more characters other than an opening bracket,
    then a selector between that bracket and a closing bracket that ends
    the text. *)
Definition TABLE_REF_RE : regex :=
  seq [Bol;
       Group "table_name" (plus (none_of "["));
       lit "[";
       Group "table_selector" (Star any);
       lit "]";
       Eol].

(** Three alternatives: a name with no opening bracket; [@] and a name in
    brackets; or any number of bracketed items each followed by a comma, an
    optional bracketed start column followed by a colon, and an optional
    bracketed end column. *)
Definition TABLE_SELECTOR_RE : regex :=
  Alt (seq [Bol; Group "row_or_column" (plus (none_of "[")); Eol])
 (Alt (seq [Bol; lit "@"; lit "[";
            Group "this_row_column" (Star (none_of "[")); lit "]"; Eol])
      (seq [Bol; Star (lit " ");
            Group "rows"
              (Star (seq [lit "["; plus (none_of "]"); lit "]";
                          Star (lit " "); lit ","; Star (lit " ")]));
            opt (seq [lit "["; Group "start_col" (plus (none_of "]")); lit "]";
                      Star (lit " "); lit ":"; Star (lit " ")]);
            opt (seq [lit "["; Group "end_col" (plus any); lit "]";
                      Star (lit " ")]);
            Eol])).

Definition MAX_COL : Z := 16384.
Definition MAX_ROW : Z := 1048576.

(** * Addresses *)

(** ** The collaborators from openpyxl *)

(** A boundary tuple: min-col, min-row, max-col, max-row, each possibly
    [None]. *)
Definition boundaries : Set := (option Z * option Z * option Z * option Z)%type.

(** [None in b]. *)
Definition has_none (b : boundaries) : bool :=
  match b with
  | (Some _, Some _, Some _, Some _) => false
  | _ => true
  end.

Definition opt_eqb (a b : option Z) : bool :=
  match a, b with
  | Some x, Some y => x =? y
  | None, None => true
  | _, _ => false
  end.

(** [b[0:2] != b[2:]]. *)
Definition corners_differ (b : boundaries) : bool :=
  let '(c1, r1, c2, r2) := b in negb (opt_eqb c1 c2 && opt_eqb r1 r2).

Fixpoint column_letters (fuel : nat) (n : Z) (acc : string) : string :=
  match fuel with
  | O => acc
  | S fuel' =>
      if n <=? 0 then acc
      else column_letters fuel' ((n - 1) / 26)
             (String (ascii_of_N (Z.to_N (65 + (n - 1) mod 26))) acc)
  end.

(** Modelled from the spec: openpyxl's [get_column_letter], which is not
    under src/.  Base 26 with no zero digit: repeatedly take [(n-1) mod 26]
    as a letter, set [n] to [(n-1) div 26], stop at 0, prepending letters.
    openpyxl accepts the indices of the columns [A] to [ZZZ] only. *)
Definition get_column_letter (col_idx : Z) : outcome string :=
  if (1 <=? col_idx) && (col_idx <=? 18278)
  then Returned (column_letters 3 col_idx "")
  else Raised ValueError.

(** openpyxl's [column_index_from_string] on one to three letters of either
    case: the inverse of [get_column_letter]. *)
Fixpoint column_index (acc : Z) (s : string) : Z :=
  match s with
  | "" => acc
  | String c s' =>
      column_index (26 * acc + (Text.code (Text.upper_char c) - 64)) s'
  end.

(** At most [n] leading characters satisfying [p], and the rest. *)
Fixpoint span_upto (n : nat) (p : ascii -> bool) (s : string) : string * string :=
  match n, s with
  | S n', String c s' =>
      if p c then let '(a, r) := span_upto n' p s' in (String c a, r)
      else ("", s)
  | _, _ => ("", s)
  end.

Definition skip_dollar (s : string) : string :=
  match s with
  | String "$" s' => s'
  | _ => s
  end.

(** One corner of an absolute reference: an optional [$], up to three
    letters, an optional [$], digits; each part may be missing. *)
Definition absolute_corner (s : string) : option Z * option Z * string :=
  let '(letters, r1) := span_upto 3 Text.is_alpha (skip_dollar s) in
  let '(digits, r2) := Literal.span_digits (skip_dollar r1) in
  (if String.eqb letters "" then None else Some (column_index 0 letters),
   if String.eqb digits "" then None else Some (Literal.digits_value 0 digits),
   r2).

Definition at_end (s : string) : bool :=
  String.eqb s "" || String.eqb s (String Re.newline "").

(** Modelled from the spec: the absolute boundary parser,
    [openpyxl.utils.range_boundaries], which is not under src/.  It reads
    letter+number notation, optionally a range with a colon, into four
    nullable integers, a missing maximum defaulting to the minimum, and
    raises [ValueError] on any other text. *)
Definition openpyxl_range_boundaries (range_string : string) : outcome boundaries :=
  let '(min_col, min_row, r) := absolute_corner range_string in
  match r with
  | String ":" r' =>
      let '(max_col, max_row, r'') := absolute_corner r' in
      if at_end r''
      then Returned (min_col, min_row,
                     match max_col with Some _ => max_col | None => min_col end,
                     match max_row with Some _ => max_row | None => min_row end)
      else Raised ValueError
  | _ =>
      if at_end r then Returned (min_col, min_row, min_col, min_row)
      else Raised ValueError
  end.

(** ** Cells and ranges *)

Module AddressCell.
Record t : Set := make
  { address : string; sheet : string; col_idx : Z; row : Z; coordinate : string }.
End AddressCell.

Module AddressRange.
Record t : Set := make
  { address : string; sheet : string;
    start : AddressCell.t; end_ : AddressCell.t; coordinate : string }.
End AddressRange.

(** What [create] returns: an [AddressCell] or an [AddressRange]. *)
Inductive Address : Set :=
| Cell (c : AddressCell.t)
| Range (r : AddressRange.t).

(** [isinstance(addr, AddressCell)]. *)
Definition is_cell (a : Address) : bool :=
  match a with Cell _ => true | Range _ => false end.

Definition address_of (a : Address) : string :=
  match a with
  | Cell c => AddressCell.address c
  | Range r => AddressRange.address r
  end.

(** ['{0}!{1}'.format(sheet, coordinate)] when there is a sheet. *)
Definition format_address (sheet coordinate : string) : string :=
  if String.eqb sheet "" then coordinate else sheet ++ "!" ++ coordinate.

(** ** The workbook behind an anchor cell *)

Record Table : Set :=
  { ref : string;
    headerRowCount : option Z;
    totalsRowCount : option Z;
    tableColumns : list string }.

(** [excel.table(name, sheet)] and [excel.defined_names.get(name)]. *)
Record Excel : Type :=
  { table : string -> string -> option Table * string;
    defined_names : string -> option (string * string) }.

(** The anchor cell, with the attributes the resolver reads: [cell.row] and
    [cell.col_idx], [cell.excel] (possibly [None]) and [cell.address]. *)
Module Anchor.
Record t : Type := make
  { row : Z; col_idx : Z; excel : option Excel; address : AddressCell.t }.
End Anchor.

(** ** Sheet names *)

Definition quote : ascii := "'".

Definition unquote_sheetname (sheetname : string) : string :=
  if Text.startswith sheetname (String quote "")
     && Text.endswith sheetname (String quote "")
  then Text.replace_doubled quote (Text.drop_last (Text.drop 1 sheetname))
  else sheetname.

(** The sheet may be given twice, in the address and as an argument; the
    empty text stands for no sheet. *)
Definition split_sheetname (address sheet : string) : outcome (string * string) :=
  match Text.split_first "!" address with
  | Some (sh, address_part) =>
      if Text.contains "!" address_part then Raised AssertionError
      else
        let sh := unquote_sheetname sh in
        if negb (String.eqb sh "") && negb (String.eqb sheet "")
           && negb (String.eqb sh sheet)
        then Raised ValueError
        else Returned (if String.eqb sheet "" then sh else sheet, address_part)
  | None => Returned (sheet, address)
  end.

(** ** Structured table references *)

(** [count if count else 0]. *)
Definition row_count (count : option Z) : Z :=
  match count with
  | Some n => n
  | None => 0
  end.

(** The first index of a column named [name]. *)
Fixpoint column_position (name : string) (columns : list string) (idx : Z)
  : option Z :=
  match columns with
  | [] => None
  | c :: columns' =>
      if String.eqb c name then Some idx
      else column_position name columns' (idx + 1)
  end.

(** [s.split(c)]. *)
Fixpoint split_on (c : ascii) (s : string) : list string :=
  match s with
  | "" => [""]
  | String a s' =>
      if Ascii.eqb a c then "" :: split_on c s'
      else match split_on c s' with
           | h :: t => String a h :: t
           | [] => [String a ""]
           end
  end.

(** [[r.split(']')[0] for r in rows.split('[')[1:]]]. *)
Definition bracketed_items (rows : string) : list string :=
  List.map (fun r => List.hd "" (split_on "]" r)) (List.tl (split_on "[" rows)).

(** A text is true when it is not empty. *)
Definition truthy (s : option string) : bool :=
  match s with
  | Some t => negb (String.eqb t "")
  | None => false
  end.

(** The row keyword, the start column and the end column that a selector
    denotes, each possibly [None]. *)
Definition selector_parts (selector : string)
  : outcome (option string * option string * option string) :=
  if String.eqb selector "" then Returned (None, None, None)
  else
    match rmatch TABLE_SELECTOR_RE selector with
    | None => Raised PyCelException
    | Some selector_match =>
        let row_or_column := group "row_or_column" selector_match in
        let this_row_column := group "this_row_column" selector_match in
        '(rows, start_col, end_col) <-
          (if truthy row_or_column then Returned (None, None, row_or_column)
           else if truthy this_row_column
           then Returned (Some "#This Row", None, this_row_column)
           else
             let rows := group "rows" selector_match in
             let start_col := group "start_col" selector_match in
             let end_col := group "end_col" selector_match in
             match rows with
             | None => Returned (rows, start_col, end_col)
             | Some rs =>
                 if String.eqb rs "" then Returned (None, start_col, end_col)
                 else if Text.contains "[" rs then
                   match bracketed_items rs with
                   | [r] => Returned (Some r, start_col, end_col)
                   | _ => Raised PyCelException
                   end
                 else Returned (rows, start_col, end_col)
             end) ;;
        match end_col with
        | None => Raised AttributeError
        | Some ec =>
            if Text.startswith ec "#" then
              match rows, start_col with
              | None, None => Returned (Some ec, start_col, None)
              | _, _ => Returned (rows, start_col, end_col)
              end
            else if Text.startswith ec "@" then
              let ec' := Text.drop 1 ec in
              Returned (Some "#This Row", start_col,
                        if String.eqb ec' "" then start_col else Some ec')
            else Returned (rows, start_col, end_col)
        end
    end.

(** The rows a row keyword denotes in a table that spans the rows
    [first_row] to [last_row]. *)
Definition selected_rows (t : Table) (first_row last_row : Z) (cell : Anchor.t)
    (rows : option string) : outcome (Z * Z) :=
  match rows with
  | None =>
      Returned (first_row + row_count (headerRowCount t),
                last_row - row_count (totalsRowCount t))
  | Some rows =>
      if String.eqb rows "#All" then Returned (first_row, last_row)
      else if String.eqb rows "#Data" then
        Returned (first_row + row_count (headerRowCount t),
                  last_row - row_count (totalsRowCount t))
      else if String.eqb rows "#Headers" then
        Returned (first_row, first_row + row_count (headerRowCount t) - 1)
      else if String.eqb rows "#Totals" then
        Returned (last_row - row_count (totalsRowCount t) + 1, last_row)
      else if String.eqb rows "#This Row" then
        Returned (AddressCell.row (Anchor.address cell),
                  AddressCell.row (Anchor.address cell))
      else Raised PyCelException
  end.

(** The columns that a start and an end column name denote in a table whose
    first column is [first_col]. *)
Definition selected_columns (t : Table) (first_col last_col : Z)
    (start_col end_col : option string) : outcome (Z * Z) :=
  match end_col with
  | None => Returned (first_col, last_col)
  | Some ec =>
      match column_position ec (tableColumns t) 0 with
      | None => Raised PyCelException
      | Some column_idx =>
          let max_col_idx := first_col + column_idx in
          match start_col with
          | None => Returned (max_col_idx, max_col_idx)
          | Some sc =>
              match column_position sc (tableColumns t) 0 with
              | None => Raised PyCelException
              | Some column_idx => Returned (first_col + column_idx, max_col_idx)
              end
          end
      end
  end.

(** [None] inside [Returned] when the address has not the shape of a table
    reference. *)
Definition structured_reference_boundaries (address : string)
    (cell : option Anchor.t) (sheet : string)
  : outcome (option (boundaries * string)) :=
  match rmatch TABLE_REF_RE address with
  | None => Returned None
  | Some m =>
      match cell with
      | None => Raised PyCelException
      | Some cell =>
          let name := match group "table_name" m with
                      | Some s => s
                      | None => ""
                      end in
          match Anchor.excel cell with
          | None => Raised AttributeError
          | Some excel =>
              let '(_, sheet) := table excel name sheet in
              let '(tbl, sheet) := table excel name sheet in
              match tbl with
              | None => Raised PyCelException
              | Some tbl =>
                  b <- openpyxl_range_boundaries (ref tbl) ;;
                  match b with
                  | (Some b0, Some b1, Some b2, Some b3) =>
                      let selector :=
                        match group "table_selector" m with
                        | Some s => s
                        | None => ""
                        end in
                      '(rows, start_col, end_col) <-
                        selector_parts selector ;;
                      '(min_row, max_row) <- selected_rows tbl b1 b3 cell rows ;;
                      '(min_col_idx, max_col_idx) <-
                        selected_columns tbl b0 b2 start_col end_col ;;
                      if (max_row <? min_row) || (max_col_idx <? min_col_idx)
                      then Raised PyCelException
                      else Returned
                             (Some ((Some min_col_idx, Some min_row,
                                     Some max_col_idx, Some max_row), sheet))
                  | _ => Raised AssertionError
                  end
              end
          end
      end
  end.

(** ** Row-column notation and the resolver chain *)

(** [assert cell is not None]. *)
Definition require_cell (cell : option Anchor.t) : outcome Anchor.t :=
  match cell with
  | Some c => Returned c
  | None => Raised AssertionError
  end.

(** [s[0]]. *)
Definition first_char (s : string) : outcome ascii :=
  match s with
  | String c _ => Returned c
  | "" => Raised IndexError
  end.

Definition from_relative_to_absolute (cell : option Anchor.t) (r1_or_c1 : string)
  : outcome Z :=
  if negb (Text.endswith r1_or_c1 "]") then
    if (1 <? String.length r1_or_c1)%nat
    then int_of (PyStr (Text.drop 1 r1_or_c1))
    else
      c <- require_cell cell ;;
      a <- first_char r1_or_c1 ;;
      if Ascii.eqb (Text.upper_char a) "R" then Returned (Anchor.row c)
      else Returned (Anchor.col_idx c)
  else
    c <- require_cell cell ;;
    a <- first_char r1_or_c1 ;;
    if Ascii.eqb (Text.lower_char a) "r" then
      d <- int_of (PyStr (Text.drop_last (Text.drop 2 r1_or_c1))) ;;
      Returned ((Anchor.row c + d - 1) mod MAX_ROW + 1)
    else
      d <- int_of (PyStr (Text.drop_last (Text.drop 2 r1_or_c1))) ;;
      Returned ((Anchor.col_idx c + d - 1) mod MAX_COL + 1).

(** [g if g is None else from_relative_to_absolute(g)]. *)
Definition resolve_group (cell : option Anchor.t) (g : option string)
  : outcome (option Z) :=
  match g with
  | None => Returned None
  | Some s => n <- from_relative_to_absolute cell s ;; Returned (Some n)
  end.

Definition present (x : option Z) : bool :=
  match x with Some _ => true | None => false end.

(** [items_present in VALID_R1C1_RANGE_ITEM_COMBOS]. *)
Definition VALID_R1C1_RANGE_ITEM_COMBOS (items_present : bool * bool * bool * bool)
  : bool :=
  match items_present with
  | (false, true, false, true)
  | (true, false, true, false)
  | (true, true, true, true) => true
  | _ => false
  end.

Definition count_present (items_present : bool * bool * bool * bool) : Z :=
  let '(a, b, c, d) := items_present in
  Z.b2z a + Z.b2z b + Z.b2z c + Z.b2z d.

(** The part of [range_boundaries] after a match of [R1C1_RANGE_RE]. *)
Definition r1c1_boundaries (address : string) (cell : option Anchor.t)
    (sheet : string) (m : captures) : outcome (boundaries * string) :=
  min_col <- resolve_group cell (group "min_col" m) ;;
  min_row <- resolve_group cell (group "min_row" m) ;;
  max_col <- resolve_group cell (group "max_col" m) ;;
  max_row <- resolve_group cell (group "max_row" m) ;;
  let items_present :=
    (present min_col, present min_row, present max_col, present max_row) in
  let is_range := Text.contains ":" address in
  if (is_range && negb (VALID_R1C1_RANGE_ITEM_COMBOS items_present))
     || (negb is_range && (count_present items_present <? 2))
  then Raised ValueError
  else
    Returned ((min_col, min_row,
               match max_col with Some _ => max_col | None => min_col end,
               match max_row with Some _ => max_row | None => min_row end),
              sheet).

(** The default [sheet=None] is the empty text here: both are false where
    the code tests a sheet. *)
Definition range_boundaries (address : string) (cell : option Anchor.t)
    (sheet : string) : outcome (boundaries * string) :=
  let continue :=
    match rmatch R1C1_RANGE_RE address with
    | Some m => r1c1_boundaries address cell sheet m
    | None =>
        table_select_boundaries <-
          structured_reference_boundaries address cell sheet ;;
        match table_select_boundaries with
        | Some found => Returned found
        | None =>
            match
              match cell with
              | Some c =>
                  match Anchor.excel c with
                  | Some excel => defined_names excel address
                  | None => None
                  end
              | None => None
              end
            with
            | Some (name_addr, name_sheet) =>
                b <- openpyxl_range_boundaries name_addr ;;
                Returned (b, name_sheet)
            | None => Raised ValueError
            end
        end
    end in
  match openpyxl_range_boundaries address with
  | Returned b =>
      if negb (has_none b) || Text.contains ":" address
      then Returned (b, sheet)
      else continue
  | Raised ValueError => continue
  | Raised e => Raised e
  | Unmodelled => Unmodelled
  end.

(** ** Construction of cells and ranges *)

Definition or_zero (a : option Z) : Z :=
  match a with
  | Some n => n
  | None => 0
  end.

(** [AddressCell(address, sheet=sheet)] for a boundary tuple. *)
Definition AddressCell_from_tuple (address : boundaries) (sheet : string)
  : outcome AddressCell.t :=
  if negb (negb (has_none address) || negb (corners_differ address))
  then Raised AssertionError
  else
    let '(c, r, _, _) := address in
    let col_idx := or_zero c in
    let row := or_zero r in
    column <- (if col_idx =? 0 then Returned "" else get_column_letter col_idx) ;;
    let coordinate :=
      column ++ (if row =? 0 then "" else Literal.string_of_int row) in
    Returned (AddressCell.make (format_address sheet coordinate)
                sheet col_idx row coordinate).

(** [AddressRange(address, sheet=sheet)] for a boundary tuple. *)
Definition AddressRange_from_tuple (address : boundaries) (sheet : string)
  : outcome AddressRange.t :=
  if negb (has_none address || corners_differ address)
  then Raised AssertionError
  else
    let '(start_col, start_row, end_col, end_row) := address in
    start <- AddressCell_from_tuple (start_col, start_row, start_col, start_row)
               sheet ;;
    end_ <- AddressCell_from_tuple (end_col, end_row, end_col, end_row) sheet ;;
    let coordinate :=
      AddressCell.coordinate start ++ ":" ++ AddressCell.coordinate end_ in
    Returned (AddressRange.make (format_address sheet coordinate)
                sheet start end_ coordinate).

(** [AddressRange.create(address, sheet=sheet, cell=cell)] for a text. *)
Definition AddressRange_create_text (address sheet : string)
    (cell : option Anchor.t) : outcome Address :=
  '(sheetname, addr) <- split_sheetname address sheet ;;
  '(addr_tuple, sheetname) <- range_boundaries addr cell sheetname ;;
  if has_none addr_tuple || corners_differ addr_tuple
  then r <- AddressRange_from_tuple addr_tuple sheetname ;; Returned (Range r)
  else c <- AddressCell_from_tuple addr_tuple sheetname ;; Returned (Cell c).

(** [AddressCell.create(address, sheet=sheet, cell=cell)] for a text. *)
Definition AddressCell_create_text (address sheet : string)
    (cell : option Anchor.t) : outcome AddressCell.t :=
  addr <- AddressRange_create_text address sheet cell ;;
  match addr with
  | Cell c => Returned c
  | Range _ => Raised ValueError
  end.

(** [AddressCell(address, sheet=sheet)] for a cell: the cell itself, or the
    cell on the given sheet when it had none. *)
Definition AddressCell_from_cell (address : AddressCell.t) (sheet : string)
  : outcome AddressCell.t :=
  if String.eqb sheet "" || String.eqb sheet (AddressCell.sheet address)
  then Returned address
  else if String.eqb (AddressCell.sheet address) ""
  then
    (* [row, col_idx, coordinate = address[2:5]] *)
    let row := AddressCell.col_idx address in
    let col_idx := AddressCell.row address in
    let coordinate := AddressCell.coordinate address in
    Returned (AddressCell.make (format_address sheet coordinate)
                sheet col_idx row coordinate)
  else Raised ValueError.

(** [AddressRange(address, sheet=sheet)] for a range. *)
Definition AddressRange_from_range (address : AddressRange.t) (sheet : string)
  : outcome AddressRange.t :=
  if String.eqb sheet "" || String.eqb sheet (AddressRange.sheet address)
  then Returned address
  else if String.eqb (AddressRange.sheet address) ""
  then
    start <- AddressCell_create_text
               (AddressCell.coordinate (AddressRange.start address)) sheet None ;;
    end_ <- AddressCell_create_text
              (AddressCell.coordinate (AddressRange.end_ address)) sheet None ;;
    let coordinate :=
      AddressCell.coordinate start ++ ":" ++ AddressCell.coordinate end_ in
    Returned (AddressRange.make (format_address sheet coordinate)
                sheet start end_ coordinate)
  else Raised ValueError.

(** What [create] accepts: a text, or a cell or range built before. *)
Inductive address_arg : Set :=
| Text (s : string)
| Typed (a : Address).

Definition AddressRange_create (address : address_arg) (sheet : string)
    (cell : option Anchor.t) : outcome Address :=
  match address with
  | Typed (Range r) => r' <- AddressRange_from_range r sheet ;; Returned (Range r')
  | Typed (Cell c) => c' <- AddressCell_from_cell c sheet ;; Returned (Cell c')
  | Text s => AddressRange_create_text s sheet cell
  end.

Definition AddressCell_create (address : address_arg) (sheet : string)
    (cell : option Anchor.t) : outcome Address :=
  addr <- AddressRange_create address sheet cell ;;
  if negb (is_cell addr) then Raised ValueError else Returned addr.

(** * Notions used in the statements *)

(** An operand that is neither error code passes the two dominance tests. *)
Definition no_error_code (v : value) : Prop :=
  v <> PyStr DIV0 /\ v <> PyStr VALUE_ERROR.

(** The substitution for one blank operand, in the spec's words but with
    the code's test on the other operand: text other than the ['#EMPTY!']
    sentinel (the empty text included). *)
Definition substitute_blank (other v : value) : value :=
  if is_blank v
  then match other with
       | PyStr s => if String.eqb s "#EMPTY!" then PyInt 0 else PyStr ""
       | _ => PyInt 0
       end
  else v.

(** The operators whose operands are coerced and passed on as they are. *)
Definition plain_coercion (op : ast_op) : bool :=
  match op with
  | op_Eq | op_NotEq | op_BitAnd => false
  | _ => true
  end.

(** The faults the two handlers of the dispatch convert. *)
Definition handled (e : exn) : bool :=
  match e with
  | ZeroDivisionError | TypeError => true
  | _ => false
  end.

Definition escapes_handled {A : Type} (m : outcome A) : Prop :=
  exists e, m = Raised e /\ handled e = true.

(** A workbook for the examples: one table [T] on [Sheet1], spanning
    [A1:C10] with one header row and one totals row, and an anchor cell at
    row 5, column 3. *)
Definition example_table : Table :=
  {| ref := "A1:C10";
     headerRowCount := Some 1;
     totalsRowCount := Some 1;
     tableColumns := ["a"; "b"; "c"] |}.

Definition example_excel : Excel :=
  {| table := fun name sheet =>
                if String.eqb name "T" then (Some example_table, "Sheet1")
                else (None, sheet);
     defined_names := fun _ => None |}.

Definition example_cell : Anchor.t :=
  Anchor.make 5 3 (Some example_excel) (AddressCell.make "C5" "" 3 5 "C5").

(** The result of a structured reference that selects the rows [lo] to
    [hi] and the columns [c1] to [c2]: an inverted span is rejected. *)
Definition row_span (c1 c2 : Z) (sheet : string) (lo hi : Z)
  : outcome (option (boundaries * string)) :=
  if (hi <? lo) || (c2 <? c1) then Raised PyCelException
  else Returned (Some ((Some c1, Some lo, Some c2, Some hi), sheet)).

(** The coordinate text of the column [c] and the row [r]: the column
    letters, then the row number. *)
Definition coordinate_text (c r : Z) : string :=
  column_letters 3 c "" ++ Literal.string_of_int r.

(** A column openpyxl has letters for, and a row of a sheet. *)
Definition valid_coordinate (c r : Z) : Prop :=
  1 <= c <= 18278 /\ 1 <= r.

(** A sheet name as the addresses print it: no [!] in it and no quotes
    around it; the empty name stands for no sheet prefix. *)
Definition plain_sheet (sheet : string) : Prop :=
  Text.contains "!" sheet = false
  /\ Text.startswith sheet "'" && Text.endswith sheet "'" = false.

(** What the letters of a column must satisfy to be read back. *)
Definition column_letters_check (c : Z) : bool :=
  let letters := column_letters 3 c "" in
  Text.forallb Text.is_upper letters
  && negb (String.eqb letters "")
  && (String.length letters <=? 3)%nat
  && (column_index 0 letters =? c).

(** [true] when the text is empty or starts with a character outside [p]. *)
Definition stops (p : ascii -> bool) (s : string) : bool :=
  match s with
  | "" => true
  | String c _ => negb (p c)
  end.

(** The text of a structured reference, [name[selector]], and the names and
    selectors for which [TABLE_REF_RE] reads it back: a name is not empty
    and has no opening bracket, a selector has no line break. *)
Definition table_reference (name selector : string) : string :=
  name ++ "[" ++ selector ++ "]".

Definition table_name_ok (name : string) : Prop :=
  name <> ""
  /\ Text.forallb (fun c => negb (Ascii.eqb c "[")) name = true.

Definition selector_ok (selector : string) : Prop :=
  Text.forallb (fun c => negb (Ascii.eqb c Re.newline)) selector = true.

(** * Properties of the operator fix-up *)

Lemma eq_text_iff (s : string) (v : value) :
  Py.eq (PyStr s) v = true <-> v = PyStr s.
Proof.
  destruct v as [| b | n | f | t]; unfold Py.eq; simpl;
    try (split; discriminate).
  destruct (String.eqb_spec s t) as [-> | N]; split; try reflexivity;
    try discriminate.
  intros [= ->]. contradiction.
Qed.

Lemma eq_text_false (s : string) (v : value) :
  v <> PyStr s -> Py.eq (PyStr s) v = false.
Proof.
  intros H. destruct (Py.eq (PyStr s) v) eqn:E; [| reflexivity].
  apply eq_text_iff in E. contradiction.
Qed.

Lemma fixup_no_error_code (l r : value) (op : ast_op) :
  no_error_code l -> no_error_code r ->
  fixup l op r =
    let '(l', r') := fixup_blanks l r in
    match fixup_operands l' op r' with
    | Returned (l2, op2, r2) =>
        if match op2 with op_Mult => is_str l2 || is_str r2 | _ => false end
        then (Returned (PyStr VALUE_ERROR),
              [{| raised := false; msg := CannotMultiply l2 r2 |}])
        else fixup_dispatch l2 op2 r2
    | Raised e => (Raised e, [])
    | Unmodelled => (Unmodelled, [])
    end.
Proof.
  intros [Hl1 Hl2] [Hr1 Hr2]. unfold fixup.
  rewrite !eq_text_false by assumption. reflexivity.
Qed.

Lemma is_blank_text (s : string) :
  is_blank (PyStr s) = String.eqb s "#EMPTY!".
Proof. reflexivity. Qed.

Lemma fixup_blanks_symmetric (l r : value) :
  fixup_blanks l r = (substitute_blank r l, substitute_blank l r).
Proof.
  unfold fixup_blanks, substitute_blank.
  destruct l as [| b | n | f | s], r as [| b' | n' | f' | s'];
    try reflexivity;
    rewrite ?is_blank_text; unfold Py.eq; simpl;
    repeat match goal with
      | |- context [String.eqb ?x "#EMPTY!"] =>
          destruct (String.eqb x "#EMPTY!") eqn:?
      end; simpl; rewrite ?is_blank_text; simpl;
    repeat match goal with
      | H : String.eqb ?x _ = _ |- _ => rewrite H
      end; try reflexivity; congruence.
Qed.

Lemma substitute_blank_not_blank (other v : value) :
  is_blank (substitute_blank other v) = false.
Proof.
  unfold substitute_blank. destruct (is_blank v) eqn:E; [| exact E].
  destruct other as [| | | | s]; try reflexivity.
  destruct (String.eqb s "#EMPTY!"); reflexivity.
Qed.

Lemma is_blank_cases (v : value) :
  is_blank v = true -> v = PyNone \/ v = PyStr "#EMPTY!".
Proof.
  destruct v as [| b | n | f | s]; try discriminate; auto.
  rewrite is_blank_text, String.eqb_eq. intros ->. auto.
Qed.

Lemma substitute_blank_id (other v : value) :
  is_blank v = false -> substitute_blank other v = v.
Proof. unfold substitute_blank. intros ->. reflexivity. Qed.

Lemma substitute_blank_error_test (c : string) (other v : value) :
  c = DIV0 \/ c = VALUE_ERROR ->
  Py.eq (PyStr c) (substitute_blank other v) = Py.eq (PyStr c) v.
Proof.
  intros Hc. unfold substitute_blank.
  destruct (is_blank v) eqn:E; [| reflexivity].
  apply is_blank_cases in E.
  destruct E as [-> | ->], Hc as [-> | ->], other as [| | | | s];
    try reflexivity; destruct (String.eqb s "#EMPTY!"); reflexivity.
Qed.

Lemma fixup_after_blanks (l r : value) (op : ast_op) :
  fixup l op r = fixup (substitute_blank r l) op (substitute_blank l r).
Proof.
  unfold fixup at 2.
  rewrite !substitute_blank_error_test by auto.
  rewrite (fixup_blanks_symmetric (substitute_blank r l)).
  rewrite !(substitute_blank_id _ (substitute_blank _ _))
    by apply substitute_blank_not_blank.
  unfold fixup. rewrite fixup_blanks_symmetric. reflexivity.
Qed.

(** C4: if either operand is the division-by-zero code the fix-up returns
    it, whatever the operator and the other operand (a value-type code, a
    blank, a value no coercion accepts); otherwise, if either operand is the
    value-type code it returns that one.  No diagnostic is emitted. *)
Theorem fixup_error_dominance (l r : value) (op : ast_op) :
  (l = PyStr DIV0 \/ r = PyStr DIV0 ->
   fixup l op r = (Returned (PyStr DIV0), []))
  /\ (l <> PyStr DIV0 -> r <> PyStr DIV0 ->
      l = PyStr VALUE_ERROR \/ r = PyStr VALUE_ERROR ->
      fixup l op r = (Returned (PyStr VALUE_ERROR), [])).
Proof.
  split.
  - intros H. unfold fixup.
    assert (E : Py.eq (PyStr DIV0) l || Py.eq (PyStr DIV0) r = true).
    { apply orb_true_iff. destruct H as [-> | ->]; [left | right];
        apply eq_text_iff; reflexivity. }
    rewrite E. reflexivity.
  - intros Hl Hr H. unfold fixup.
    rewrite (eq_text_false _ _ Hl), (eq_text_false _ _ Hr).
    assert (E : Py.eq (PyStr VALUE_ERROR) l || Py.eq (PyStr VALUE_ERROR) r = true).
    { apply orb_true_iff. destruct H as [-> | ->]; [left | right];
        apply eq_text_iff; reflexivity. }
    simpl orb. cbv iota. rewrite E. reflexivity.
Qed.

(** The spec's example, [apply(DIV0, add, 1) = DIV0]; the division-by-zero
    code wins over the value-type code on either side, and over an operand
    whose coercion would raise. *)
Lemma fixup_error_dominance_witness :
  fixup (PyStr DIV0) op_Add (PyInt 1) = (Returned (PyStr DIV0), [])
  /\ fixup (PyStr VALUE_ERROR) op_Mult (PyStr DIV0) = (Returned (PyStr DIV0), [])
  /\ fixup (PyFloat (S754_infinity false)) op_Sub (PyStr DIV0)
     = (Returned (PyStr DIV0), [])
  /\ fixup PyNone op_Add (PyStr VALUE_ERROR) = (Returned (PyStr VALUE_ERROR), []).
Proof.
  refine (conj _ (conj _ (conj _ _))).
  - apply (proj1 (fixup_error_dominance _ _ _)). left. reflexivity.
  - apply (proj1 (fixup_error_dominance _ _ _)). right. reflexivity.
  - apply (proj1 (fixup_error_dominance _ _ _)). right. reflexivity.
  - apply (proj2 (fixup_error_dominance _ _ _)).
    + discriminate.
    + discriminate.
    + right. reflexivity.
Defined.

(** C2, as the code has it: a blank operand ([None] or the ['#EMPTY!']
    sentinel) is replaced by [0] unless the other operand is text other than
    the sentinel, the empty text included, in which case it is replaced by
    the empty text; the fix-up then proceeds on the substituted operands. *)
Theorem fixup_blank_substitution (l r : value) (op : ast_op) :
  fixup_blanks l r = (substitute_blank r l, substitute_blank l r)
  /\ fixup l op r = fixup (substitute_blank r l) op (substitute_blank l r)
  /\ fixup PyNone op_Add (PyInt 5) = (Returned (PyInt 5), [])
  /\ fixup PyNone op_BitAnd (PyStr "x") = (Returned (PyStr "x"), [])
  /\ substitute_blank (PyStr "") PyNone = PyStr "".
Proof.
  split; [apply fixup_blanks_symmetric |].
  split; [apply fixup_after_blanks |].
  repeat split.
Qed.

(** C2 as stated fails where the partner of a blank is the empty text: the
    blank becomes the empty text, not [0], so that joining the two gives the
    empty text and not ["0"]. *)
Lemma fixup_blank_with_empty_text :
  fixup_blanks PyNone (PyStr "") = (PyStr "", PyStr "")
  /\ fixup PyNone op_BitAnd (PyStr "") = (Returned (PyStr ""), [])
  /\ fixup (PyInt 0) op_BitAnd (PyStr "") = (Returned (PyStr "0"), []).
Proof. repeat split. Qed.

(** ** Equality, coercion and the guarded dispatch *)

Lemma substitute_blank_no_error_code (other v : value) :
  no_error_code v -> no_error_code (substitute_blank other v).
Proof.
  intros [H1 H2]. unfold substitute_blank.
  destruct (is_blank v); [| split; assumption].
  destruct other as [| | | | s]; try (split; discriminate).
  destruct (String.eqb s "#EMPTY!"); split; discriminate.
Qed.

Lemma fixup_equality_ops (l r : value) (op : ast_op) :
  op = op_Eq \/ op = op_NotEq ->
  no_error_code l -> no_error_code r ->
  fixup l op r =
    let l' := substitute_blank r l in
    let r' := substitute_blank l r in
    let same := match l', r' with
                | PyStr s, PyStr t => String.eqb (Text.lower s) (Text.lower t)
                | _, _ => Py.eq l' r'
                end in
    (Returned (PyBool (match op with op_Eq => same | _ => negb same end)), []).
Proof.
  intros Hop Hl Hr. rewrite fixup_no_error_code by assumption.
  rewrite fixup_blanks_symmetric. cbv zeta.
  destruct Hop as [-> | ->];
    destruct (substitute_blank r l) as [| b | n | f | s],
             (substitute_blank l r) as [| b' | n' | f' | s']; reflexivity.
Qed.

(** C1, as the code has it: for equals and not-equals on operands that are
    no error codes, after the substitution for blanks, two texts are
    compared with their case folded, and otherwise the operands are compared
    by value as they are, with no numeric coercion. *)
Theorem fixup_equality (l r : value) :
  no_error_code l -> no_error_code r ->
  let l' := substitute_blank r l in
  let r' := substitute_blank l r in
  (forall s t, l' = PyStr s -> r' = PyStr t ->
     fixup l op_Eq r
       = (Returned (PyBool (String.eqb (Text.lower s) (Text.lower t))), [])
     /\ fixup l op_NotEq r
       = (Returned (PyBool (negb (String.eqb (Text.lower s) (Text.lower t)))), []))
  /\ (is_str l' && is_str r' = false ->
      fixup l op_Eq r = (Returned (PyBool (Py.eq l' r')), [])
      /\ fixup l op_NotEq r = (Returned (PyBool (negb (Py.eq l' r'))), [])).
Proof.
  intros Hl Hr l' r'.
  pose proof (fixup_equality_ops l r op_Eq (or_introl eq_refl) Hl Hr) as HE.
  pose proof (fixup_equality_ops l r op_NotEq (or_intror eq_refl) Hl Hr) as HN.
  cbv zeta in HE, HN. fold l' r' in HE, HN. split.
  - intros s t Es Et. rewrite Es, Et in HE, HN. split; assumption.
  - intros Hns. rewrite HE, HN.
    destruct l' as [| | | | s], r' as [| | | | t]; try (split; reflexivity).
    discriminate.
Qed.

(** The spec's example, [apply("ABC", equals, "abc") = true], and a text
    against a number. *)
Lemma fixup_equality_witness :
  fixup (PyStr "ABC") op_Eq (PyStr "abc") = (Returned (PyBool true), [])
  /\ fixup (PyStr "ABC") op_NotEq (PyStr "abc") = (Returned (PyBool false), [])
  /\ fixup (PyStr "abc") op_Eq (PyFloat (Float.of_Z 2)) = (Returned (PyBool false), []).
Proof.
  assert (N : forall s, s <> DIV0 -> s <> VALUE_ERROR -> no_error_code (PyStr s)).
  { intros s H1 H2. split; intros [= E]; contradiction. }
  assert (F : forall f, no_error_code (PyFloat f)) by (split; discriminate).
  refine (conj _ (conj _ _)).
  - refine (proj1 (proj1 (fixup_equality (PyStr "ABC") (PyStr "abc")
                            (N _ _ _) (N _ _ _)) "ABC" "abc" eq_refl eq_refl));
      discriminate.
  - refine (proj2 (proj1 (fixup_equality (PyStr "ABC") (PyStr "abc")
                            (N _ _ _) (N _ _ _)) "ABC" "abc" eq_refl eq_refl));
      discriminate.
  - refine (proj1 (proj2 (fixup_equality (PyStr "abc") (PyFloat (Float.of_Z 2))
                            (N _ _ _) (F _)) eq_refl));
      discriminate.
Defined.

(** C1 as stated fails on a text and a number: no coercion is applied, the
    text ["5"] and the number [5] are unequal, though the coercion rule maps
    that text to that number. *)
Lemma fixup_equality_no_coercion :
  fixup (PyStr "5") op_Eq (PyInt 5) = (Returned (PyBool false), [])
  /\ fixup (PyStr "5") op_NotEq (PyInt 5) = (Returned (PyBool true), [])
  /\ coerce_to_number (PyStr "5") = Returned (PyInt 5).
Proof. repeat split. Qed.

Lemma bind_handled {A B : Type} (m : outcome A) (k : A -> outcome B) :
  ~ escapes_handled m -> (forall a, ~ escapes_handled (k a)) ->
  ~ escapes_handled (bind m k).
Proof.
  intros Hm Hk. destruct m as [a | e |]; simpl.
  - apply Hk.
  - intros [e' [[= <-] He]]. apply Hm. exists e. auto.
  - intros [e' [[=] _]].
Qed.

Lemma returned_handled {A : Type} (a : A) : ~ escapes_handled (Returned a).
Proof. intros [e [[=] _]]. Qed.

Lemma raised_handled {A : Type} (e : exn) :
  handled e = false -> ~ escapes_handled (@Raised A e).
Proof. intros H [e' [[= <-] He]]. congruence. Qed.

Lemma raised_handled_any {A B : Type} (e : exn) :
  ~ escapes_handled (@Raised A e) -> ~ escapes_handled (@Raised B e).
Proof.
  intros H [e' [[= <-] He]]. apply H. exists e. auto.
Qed.

Lemma unmodelled_handled {A : Type} : ~ escapes_handled (@Unmodelled A).
Proof. intros [e [[=] _]]. Qed.

Create HintDb handled.
#[local] Hint Resolve returned_handled unmodelled_handled : handled.
#[local] Hint Extern 1 (~ escapes_handled (Raised _)) =>
  (apply raised_handled; reflexivity) : handled.

Lemma of_int_handled (n : Z) : ~ escapes_handled (Float.of_int n).
Proof. unfold Float.of_int. destruct (Float.of_Z n); auto with handled. Qed.

Lemma to_int_handled (f : Float.float) : ~ escapes_handled (Float.to_int f).
Proof. destruct f; simpl; auto with handled. Qed.

Lemma str_handled (v : value) : ~ escapes_handled (Py.str v).
Proof.
  destruct v as [| [] | n | [[] | [] | | s m e] | s]; simpl; auto with handled.
Qed.

Lemma coerce_to_number_handled (v : value) :
  v <> PyStr DIV0 -> ~ escapes_handled (coerce_to_number v).
Proof.
  intros Hv. destruct v as [| b | n | f | s].
  - simpl. auto with handled.
  - destruct b; simpl; auto with handled.
  - unfold coerce_to_number, is_number. simpl.
    pose proof (of_int_handled n) as H.
    destruct (Float.of_int n) as [g | e |]; simpl.
    + destruct (Py.eq (PyInt n) (PyFloat g)); auto with handled.
    + destruct e; simpl; auto with handled.
      exfalso. apply H. eexists. split; reflexivity.
    + auto with handled.
  - unfold coerce_to_number, is_number. simpl.
    pose proof (to_int_handled f) as H.
    destruct (Float.to_int f) as [i | e |]; simpl.
    + destruct (Py.eq (PyInt i) (PyFloat f)); auto with handled.
    + revert H. apply raised_handled_any.
    + auto with handled.
  - unfold coerce_to_number.
    destruct (String.eqb_spec s DIV0) as [-> | N]; [contradiction |].
    simpl. destruct (Text.contains "." s); simpl;
      [| destruct (Literal.int_of_string s); simpl; [auto with handled |] ];
      destruct (Literal.float_of_string s); cbn; auto with handled.
Qed.

Lemma fixup_operands_handled (l r : value) (op : ast_op) :
  l <> PyStr DIV0 -> r <> PyStr DIV0 ->
  ~ escapes_handled (fixup_operands l op r).
Proof.
  intros Hl Hr.
  pose proof (coerce_to_number_handled l Hl) as Cl.
  pose proof (coerce_to_number_handled r Hr) as Cr.
  destruct op; simpl;
    try (destruct l, r; auto with handled; fail);
    repeat (apply bind_handled; [auto using str_handled | intros ?]);
    auto with handled.
Qed.

Lemma fixup_dispatch_handled (l r : value) (op : ast_op) :
  ~ escapes_handled (fst (fixup_dispatch l op r)).
Proof.
  unfold fixup_dispatch.
  destruct (PYTHON_AST_OPERATORS op l r) as [v | e |]; simpl;
    auto with handled.
  destruct e; simpl; auto with handled.
Qed.

Lemma fixup_handled (l r : value) (op : ast_op) :
  ~ escapes_handled (fst (fixup l op r)).
Proof.
  unfold fixup.
  destruct (Py.eq (PyStr DIV0) l || Py.eq (PyStr DIV0) r) eqn:E1;
    [simpl; auto with handled |].
  destruct (Py.eq (PyStr VALUE_ERROR) l || Py.eq (PyStr VALUE_ERROR) r) eqn:E2;
    [simpl; auto with handled |].
  apply orb_false_iff in E1. destruct E1 as [E1l E1r].
  rewrite fixup_blanks_symmetric.
  assert (Hl : substitute_blank r l <> PyStr DIV0).
  { intros H. apply eq_text_iff in H.
    rewrite substitute_blank_error_test in H by auto. congruence. }
  assert (Hr : substitute_blank l r <> PyStr DIV0).
  { intros H. apply eq_text_iff in H.
    rewrite substitute_blank_error_test in H by auto. congruence. }
  pose proof (fixup_operands_handled _ _ op Hl Hr) as H.
  destruct (fixup_operands (substitute_blank r l) op (substitute_blank l r))
    as [[[l2 op2] r2] | e |]; simpl.
  - destruct (match op2 with op_Mult => is_str l2 || is_str r2 | _ => false end);
      [simpl; auto with handled | apply fixup_dispatch_handled].
  - revert H. apply raised_handled_any.
  - auto with handled.
Qed.

(** C3, as the code has it: a division by zero raised by the primitive is
    caught and converted to the division-by-zero code, a type mismatch to
    the value-type code, each with a diagnostic; so the fix-up never
    propagates either of these two faults, for any operator and operands.
    Any other fault of the primitive propagates unchanged, with no
    diagnostic, and a returned value is passed on. *)
Theorem fixup_handles_two_faults (l r : value) (op : ast_op) :
  fst (fixup l op r) <> Raised ZeroDivisionError
  /\ fst (fixup l op r) <> Raised TypeError
  /\ forall l2 op2 r2,
       no_error_code l -> no_error_code r ->
       fixup_operands (substitute_blank r l) op (substitute_blank l r)
         = Returned (l2, op2, r2) ->
       (op2 = op_Mult -> is_str l2 || is_str r2 = false) ->
       let diag := [{| raised := true; msg := Values l2 op2 r2 |}] in
       (PYTHON_AST_OPERATORS op2 l2 r2 = Raised ZeroDivisionError ->
        fixup l op r = (Returned (PyStr DIV0), diag))
       /\ (PYTHON_AST_OPERATORS op2 l2 r2 = Raised TypeError ->
           fixup l op r = (Returned (PyStr VALUE_ERROR), diag))
       /\ (forall e, PYTHON_AST_OPERATORS op2 l2 r2 = Raised e ->
                     handled e = false -> fixup l op r = (Raised e, []))
       /\ (forall v, PYTHON_AST_OPERATORS op2 l2 r2 = Returned v ->
                     fixup l op r = (Returned v, [])).
Proof.
  split; [| split].
  - intros H. apply (fixup_handled l r op). eexists. split; [exact H | reflexivity].
  - intros H. apply (fixup_handled l r op). eexists. split; [exact H | reflexivity].
  - intros l2 op2 r2 Hl Hr Hops Hmul diag.
    rewrite fixup_no_error_code by assumption.
    rewrite fixup_blanks_symmetric, Hops.
    assert (G : match op2 with
                | op_Mult => is_str l2 || is_str r2
                | _ => false
                end = false).
    { destruct op2; try reflexivity. apply Hmul. reflexivity. }
    rewrite G. unfold fixup_dispatch.
    repeat split.
    + intros ->. reflexivity.
    + intros ->. reflexivity.
    + intros e -> He. destruct e; try reflexivity; discriminate.
    + intros v ->. reflexivity.
Qed.

(** The spec's example, [apply(1, divide, 0) = DIV0], with its diagnostic,
    and a comparison of a text with a number. *)
Lemma fixup_handles_two_faults_witness :
  fixup (PyInt 1) op_Div (PyInt 0)
    = (Returned (PyStr DIV0),
       [{| raised := true; msg := Values (PyInt 1) op_Div (PyInt 0) |}])
  /\ fixup (PyStr "a") op_Lt (PyInt 3)
    = (Returned (PyStr VALUE_ERROR),
       [{| raised := true; msg := Values (PyStr "a") op_Lt (PyInt 3) |}]).
Proof.
  assert (I : forall n, no_error_code (PyInt n)) by (split; discriminate).
  assert (A : no_error_code (PyStr "a")) by (split; discriminate).
  split.
  - refine (proj1 (proj2 (proj2 (fixup_handles_two_faults (PyInt 1) (PyInt 0) op_Div))
                     (PyInt 1) op_Div (PyInt 0) (I _) (I _) eq_refl _) eq_refl).
    discriminate.
  - refine (proj1 (proj2 (proj2 (proj2
              (fixup_handles_two_faults (PyStr "a") (PyInt 3) op_Lt))
                     (PyStr "a") op_Lt (PyInt 3) A (I _) eq_refl _)) eq_refl).
    discriminate.
Defined.

(** C3 as stated fails: a shift by a negative count raises a [ValueError]
    that no handler catches, and the coercion of an infinite float raises an
    [OverflowError] before the guarded call is reached. *)
Lemma fixup_fault_escapes :
  fixup (PyInt 1) op_LShift (PyInt (-1)) = (Raised ValueError, [])
  /\ fixup (PyFloat (S754_infinity false)) op_Add (PyInt 1)
     = (Raised OverflowError, []).
Proof. split; reflexivity. Qed.

(** ** Numeric coercion *)

(** C8, as the code has it.  Of a text other than the division-by-zero
    literal: with no decimal point and accepted by [int], its integer;
    otherwise, when accepted by [float], its float; otherwise the text
    itself.  The division-by-zero literal is no value: evaluating [1/0]
    raises a division-by-zero fault that [coerce_to_number] does not catch.
    A value that is no text and whose [int] and [float] forms are equal
    becomes that integer.  Every operator but equals, not-equals and text
    join passes both operands through this coercion. *)
Theorem coerce_to_number_cases :
  (forall s n, s <> DIV0 -> Text.contains "." s = false ->
     Literal.int_of_string s = Some n ->
     coerce_to_number (PyStr s) = Returned (PyInt n))
  /\ (forall s f, s <> DIV0 ->
        Text.contains "." s = true \/ Literal.int_of_string s = None ->
        Literal.float_of_string s = Some f ->
        coerce_to_number (PyStr s) = Returned (PyFloat f))
  /\ (forall s, s <> DIV0 ->
        Text.contains "." s = true \/ Literal.int_of_string s = None ->
        Literal.float_of_string s = None ->
        coerce_to_number (PyStr s) = Returned (PyStr s))
  /\ coerce_to_number (PyStr DIV0) = Raised ZeroDivisionError
  /\ (forall v i f, is_str v = false ->
        int_of v = Returned i -> float_of v = Returned f ->
        Py.eq (PyInt i) (PyFloat f) = true ->
        coerce_to_number v = Returned (PyInt i))
  /\ (forall l op r, plain_coercion op = true ->
        fixup_operands l op r
        = (l' <- coerce_to_number l ;; r' <- coerce_to_number r ;;
           Returned (l', op, r'))).
Proof.
  refine (conj _ (conj _ (conj _ (conj _ (conj _ _))))).
  - intros s n N Hdot Hint. unfold coerce_to_number.
    apply String.eqb_neq in N. rewrite N, Hdot. simpl. rewrite Hint. reflexivity.
  - intros s f N H Hf. unfold coerce_to_number.
    apply String.eqb_neq in N. rewrite N.
    destruct H as [H | H].
    + rewrite H. cbn. rewrite Hf. reflexivity.
    + destruct (Text.contains "." s); cbn; rewrite ?H, Hf; reflexivity.
  - intros s N H Hf. unfold coerce_to_number.
    apply String.eqb_neq in N. rewrite N.
    destruct H as [H | H].
    + rewrite H. cbn. rewrite Hf. reflexivity.
    + destruct (Text.contains "." s); cbn; rewrite ?H, Hf; reflexivity.
  - reflexivity.
  - intros v i f Hv Hi Hf Heq. unfold coerce_to_number, is_number.
    destruct v as [| b | n | g | s]; try discriminate;
      rewrite Hf; cbn [bind except_value_type except];
      rewrite Hi; cbn [bind]; rewrite Heq; reflexivity.
  - intros l op r Hop. destruct op; try discriminate; reflexivity.
Qed.

(** The texts ["5"], ["5.5"], ["1e3"] and ["abc"], the float [5.0] and the
    boolean [True]. *)
Lemma coerce_to_number_witness :
  coerce_to_number (PyStr "5") = Returned (PyInt 5)
  /\ coerce_to_number (PyStr "5.5")
     = Returned (PyFloat (S754_finite false 6192449487634432 (-50)))
  /\ coerce_to_number (PyStr "1e3") = Returned (PyFloat (Float.of_Z 1000))
  /\ coerce_to_number (PyStr "abc") = Returned (PyStr "abc")
  /\ coerce_to_number (PyFloat (Float.of_Z 5)) = Returned (PyInt 5)
  /\ coerce_to_number (PyBool true) = Returned (PyInt 1).
Proof.
  destruct coerce_to_number_cases as (Hint & Hfloat & Htext & _ & Hnum & _).
  refine (conj _ (conj _ (conj _ (conj _ (conj _ _))))).
  - apply Hint; [discriminate | reflexivity | reflexivity].
  - apply Hfloat; [discriminate | left; reflexivity | reflexivity].
  - apply Hfloat; [discriminate | right; reflexivity | reflexivity].
  - apply Htext; [discriminate | right; reflexivity | reflexivity].
  - apply (Hnum _ 5 (Float.of_Z 5)); reflexivity.
  - apply (Hnum _ 1 (Float.of_Z 1)); reflexivity.
Defined.

(** C8 as stated fails on the division-by-zero literal: it is coerced to no
    value, numeric or other. *)
Lemma coerce_to_number_div0_raises :
  coerce_to_number (PyStr DIV0) = Raised ZeroDivisionError.
Proof. reflexivity. Qed.

(** * Facts about text and decimal numerals *)

Module TextFacts.
Import Text.

Lemma append_nil_r (s : string) : s ++ "" = s.
Proof. induction s as [| c s IH]; simpl; [| rewrite IH]; reflexivity. Qed.

Lemma append_assoc (a b c : string) : (a ++ b) ++ c = a ++ (b ++ c).
Proof. induction a as [| x a IH]; simpl; [| rewrite IH]; reflexivity. Qed.

Lemma length_append (a b : string) :
  String.length (a ++ b) = (String.length a + String.length b)%nat.
Proof. induction a as [| c a IH]; simpl; [| rewrite IH]; reflexivity. Qed.

Lemma rev_app_spec (s a b : string) :
  rev_app (rev_app s a) b = rev_app a (s ++ b).
Proof.
  revert a b. induction s as [| c s IH]; intros a b; simpl.
  - reflexivity.
  - rewrite IH. reflexivity.
Qed.

Lemma rev_app_append (s a : string) : rev_app s a = rev s ++ a.
Proof.
  unfold rev. revert a. induction s as [| c s IH]; intros a; simpl.
  - reflexivity.
  - rewrite IH, (IH (String c "")), append_assoc. reflexivity.
Qed.

Lemma rev_involutive (s : string) : rev (rev s) = s.
Proof. unfold rev. rewrite rev_app_spec. simpl. apply append_nil_r. Qed.

Lemma rev_cons (c : ascii) (s : string) : rev (String c s) = rev s ++ String c "".
Proof. unfold rev. simpl. apply rev_app_append. Qed.

Lemma rev_append (a b : string) : rev (a ++ b) = rev b ++ rev a.
Proof.
  induction a as [| c a IH]; simpl.
  - rewrite append_nil_r. reflexivity.
  - rewrite !rev_cons, IH, append_assoc. reflexivity.
Qed.

Lemma forallb_append (p : ascii -> bool) (a b : string) :
  forallb p (a ++ b) = forallb p a && forallb p b.
Proof.
  induction a as [| c a IH]; simpl; [reflexivity |].
  rewrite IH, andb_assoc. reflexivity.
Qed.

Lemma forallb_rev (p : ascii -> bool) (s : string) :
  forallb p (rev s) = forallb p s.
Proof.
  induction s as [| c s IH]; [reflexivity |].
  rewrite rev_cons, forallb_append, IH. simpl.
  rewrite andb_true_r, andb_comm. reflexivity.
Qed.

Lemma forallb_impl (p q : ascii -> bool) (s : string) :
  (forall c, p c = true -> q c = true) ->
  forallb p s = true -> forallb q s = true.
Proof.
  intros H. induction s as [| c s IH]; simpl; [reflexivity |].
  intros E. apply andb_true_iff in E. destruct E as [E1 E2].
  rewrite (H _ E1), (IH E2). reflexivity.
Qed.

Lemma lstrip_id (p : ascii -> bool) (s : string) :
  forallb (fun c => negb (p c)) s = true -> lstrip p s = s.
Proof.
  destruct s as [| c s]; simpl; [reflexivity |].
  intros E. apply andb_true_iff in E. destruct E as [E _].
  apply negb_true_iff in E. rewrite E. reflexivity.
Qed.

Lemma strip_id (s : string) :
  forallb (fun c => negb (is_space c)) s = true -> strip s = s.
Proof.
  intros E. unfold strip, rstrip. rewrite (lstrip_id _ s E).
  rewrite lstrip_id by (rewrite forallb_rev; exact E).
  apply rev_involutive.
Qed.

Lemma drop_last_append (s : string) (c : ascii) :
  drop_last (s ++ String c "") = s.
Proof.
  induction s as [| a s IH]; simpl; [reflexivity |].
  rewrite IH. destruct s; reflexivity.
Qed.

Lemma endswith_append (s : string) (c : ascii) :
  endswith (s ++ String c "") (String c "") = true.
Proof.
  unfold endswith. rewrite rev_append. simpl.
  destruct (ascii_dec c c) as [_ | N]; [| contradiction].
  destruct (rev s); reflexivity.
Qed.

Lemma endswith_last_differs (p : ascii -> bool) (pre s : string) (c : ascii) :
  forallb p s = true -> s <> "" -> p c = false ->
  endswith (pre ++ s) (String c "") = false.
Proof.
  intros Hs Hne Hc. unfold endswith. rewrite rev_append.
  rewrite <- forallb_rev in Hs.
  destruct (rev s) as [| a t] eqn:E.
  - exfalso. apply Hne. rewrite <- (rev_involutive s), E. reflexivity.
  - simpl in *. apply andb_true_iff in Hs. destruct Hs as [Ha _].
    destruct (ascii_dec c a) as [-> | N]; [congruence | reflexivity].
Qed.


Lemma contains_append (c : ascii) (a b : string) :
  contains c (a ++ b) = contains c a || contains c b.
Proof.
  unfold contains. induction a as [| x a IH]; simpl; [reflexivity |].
  rewrite IH, orb_assoc. reflexivity.
Qed.

Lemma contains_false (p : ascii -> bool) (c : ascii) (s : string) :
  forallb p s = true -> p c = false -> contains c s = false.
Proof.
  intros Hs Hc. unfold contains. induction s as [| a s IH]; simpl; [reflexivity |].
  simpl in Hs. apply andb_true_iff in Hs. destruct Hs as [Ha Hs].
  rewrite (IH Hs), orb_false_r. apply Ascii.eqb_neq. congruence.
Qed.

Lemma split_first_append (c : ascii) (a b : string) :
  contains c a = false ->
  split_first c (a ++ String c b) = Some (a, b).
Proof.
  unfold contains. induction a as [| x a IH]; simpl.
  - intros _. rewrite Ascii.eqb_refl. reflexivity.
  - intros E. apply orb_false_iff in E. destruct E as [E1 E2].
    rewrite Ascii.eqb_sym, E1, (IH E2). reflexivity.
Qed.

Lemma split_first_none (c : ascii) (s : string) :
  contains c s = false -> split_first c s = None.
Proof.
  unfold contains. induction s as [| x s IH]; simpl; [reflexivity |].
  intros E. apply orb_false_iff in E. destruct E as [E1 E2].
  rewrite Ascii.eqb_sym, E1, (IH E2). reflexivity.
Qed.

End TextFacts.

Module NumeralFacts.
Import Text Literal.

Lemma digit_is_plain (c : ascii) :
  is_digit c = true ->
  is_space c = false /\ Ascii.eqb c "_" = false /\ is_alpha c = false
  /\ Ascii.eqb c "!" = false /\ Ascii.eqb c ":" = false
  /\ Ascii.eqb c "$" = false /\ Ascii.eqb c "]" = false.
Proof.
  destruct c as [[] [] [] [] [] [] [] []]; try discriminate; intros _;
    repeat split; reflexivity.
Qed.

Ltac digit_step IH :=
  match goal with
  | |- digits_value (10 * ?a + digit_val ?c) _ = _ =>
      let v := eval vm_compute in (digit_val c) in
      change (digit_val c) with v
  end;
  match goal with
  | |- digits_value ?x _ = Zpos (Pos.of_uint_acc _ ?b) =>
      replace x with (Zpos b) by lia; apply IH
  end.

Lemma digits_value_uint_acc (d : Decimal.uint) (acc : positive) :
  digits_value (Zpos acc) (NilEmpty.string_of_uint d)
  = Zpos (Pos.of_uint_acc d acc).
Proof.
  revert acc.
  induction d; intros acc;
    cbn [NilEmpty.string_of_uint digits_value Pos.of_uint_acc];
    [reflexivity | digit_step IHd ..].
Qed.

Lemma digits_value_uint (d : Decimal.uint) :
  digits_value 0 (NilEmpty.string_of_uint d) = Z.of_N (Pos.of_uint d).
Proof.
  induction d; cbn [NilEmpty.string_of_uint digits_value Pos.of_uint];
    try reflexivity;
    match goal with
    | |- digits_value (10 * 0 + digit_val ?c) _ = _ =>
        let v := eval vm_compute in (10 * 0 + digit_val c) in
        change (10 * 0 + digit_val c) with v
    end;
    [exact IHd | apply digits_value_uint_acc ..].
Qed.

Lemma uint_all_digits (d : Decimal.uint) :
  forallb is_digit (NilEmpty.string_of_uint d) = true.
Proof. induction d; simpl; try reflexivity; exact IHd. Qed.

Lemma uint_nonempty (d : Decimal.uint) :
  d <> Decimal.Nil -> NilEmpty.string_of_uint d <> "".
Proof. destruct d; simpl; congruence. Qed.

(** The decimal numeral of a natural number: digits only, at least one,
    and [digits_value] reads it back. *)
Lemma numeral_of_N (n : N) :
  let s := string_of_int (Z.of_N n) in
  forallb is_digit s = true /\ s <> "" /\ digits_value 0 s = Z.of_N n.
Proof.
  destruct n as [| p]; [repeat split; discriminate |].
  unfold string_of_int. simpl Z.of_N. simpl Z.to_int.
  cbn [NilZero.string_of_int].
  pose proof (Unsigned.to_uint_nonnil p) as Hn.
  assert (E : NilZero.string_of_uint (Pos.to_uint p)
              = NilEmpty.string_of_uint (Pos.to_uint p)).
  { destruct (Pos.to_uint p); [contradiction | reflexivity ..]. }
  rewrite E. cbv zeta. split; [apply uint_all_digits |].
  split; [apply uint_nonempty, Hn |].
  rewrite digits_value_uint, DecimalPos.Unsigned.of_to. reflexivity.
Qed.

Lemma drop_underscores_id (prev : ascii) (s : string) :
  Ascii.eqb prev "_" = false ->
  forallb (fun c => negb (Ascii.eqb c "_")) s = true ->
  drop_underscores prev s = Some s.
Proof.
  revert prev. induction s as [| c s IH]; intros prev Hp Hs; simpl.
  - rewrite Hp. reflexivity.
  - simpl in Hs. apply andb_true_iff in Hs. destruct Hs as [Hc Hs].
    apply negb_true_iff in Hc. rewrite Hc, Hp. simpl.
    rewrite (IH c Hc Hs). reflexivity.
Qed.

Lemma prepare_plain (s : string) :
  forallb (fun c => negb (is_space c) && negb (Ascii.eqb c "_")) s = true ->
  prepare s = Some s.
Proof.
  intros H. unfold prepare. rewrite TextFacts.strip_id.
  - apply drop_underscores_id; [reflexivity |].
    revert H. apply TextFacts.forallb_impl. intros c E.
    apply andb_true_iff in E. tauto.
  - revert H. apply TextFacts.forallb_impl. intros c E.
    apply andb_true_iff in E. tauto.
Qed.

Lemma digits_plain (s : string) :
  forallb is_digit s = true ->
  forallb (fun c => negb (is_space c) && negb (Ascii.eqb c "_")) s = true.
Proof.
  apply TextFacts.forallb_impl. intros c H.
  destruct (digit_is_plain c H) as (-> & -> & _). reflexivity.
Qed.

Lemma sign_digits (s : string) :
  forallb is_digit s = true -> sign s = (false, s).
Proof.
  destruct s as [| c s]; [reflexivity |]. simpl. intros H.
  apply andb_true_iff in H. destruct H as [H _].
  destruct c as [[] [] [] [] [] [] [] []]; try discriminate; reflexivity.
Qed.

Lemma all_digits_intro (s : string) :
  forallb is_digit s = true -> s <> "" -> all_digits s = true.
Proof.
  intros H N. unfold all_digits. rewrite H, andb_true_r.
  apply negb_true_iff, String.eqb_neq, N.
Qed.

(** [int(str(n)) == n]. *)
Lemma int_of_string_of_int (n : Z) :
  int_of_string (string_of_int n) = Some n.
Proof.
  unfold int_of_string. destruct n as [| p | p].
  - reflexivity.
  - destruct (numeral_of_N (Npos p)) as (Hd & Hn & Hv).
    simpl Z.of_N in *.
    rewrite prepare_plain by (apply digits_plain, Hd).
    rewrite (sign_digits _ Hd), (all_digits_intro _ Hd Hn), Hv. reflexivity.
  - destruct (numeral_of_N (Npos p)) as (Hd & Hn & Hv).
    simpl Z.of_N in *.
    change (string_of_int (Z.neg p))
      with (String "-" (string_of_int (Z.pos p))).
    rewrite prepare_plain
      by (simpl; apply digits_plain, Hd).
    cbn [sign]. rewrite (all_digits_intro _ Hd Hn), Hv. reflexivity.
Qed.

End NumeralFacts.

(** * Row-column notation *)

Lemma relative_component (cell : option Anchor.t) (letter : ascii) (d : Z) :
  from_relative_to_absolute cell (String letter ("[" ++ Literal.string_of_int d ++ "]"))
  = (c <- require_cell cell ;;
     if Ascii.eqb (Text.lower_char letter) "r"
     then Returned ((Anchor.row c + d - 1) mod MAX_ROW + 1)
     else Returned ((Anchor.col_idx c + d - 1) mod MAX_COL + 1)).
Proof.
  unfold from_relative_to_absolute.
  change (String letter ("[" ++ Literal.string_of_int d ++ "]"))
    with (String letter (String "[" (Literal.string_of_int d)) ++ "]").
  rewrite TextFacts.endswith_append. cbn [negb].
  destruct cell as [c |]; [| reflexivity].
  cbn [require_cell bind first_char append Text.drop].
  rewrite TextFacts.drop_last_append.
  unfold int_of. rewrite NumeralFacts.int_of_string_of_int.
  destruct (Ascii.eqb (Text.lower_char letter) "r"); reflexivity.
Qed.

Lemma absolute_component (cell : option Anchor.t) (letter : ascii) (n : N) :
  from_relative_to_absolute cell
    (String letter (Literal.string_of_int (Z.of_N n)))
  = Returned (Z.of_N n).
Proof.
  unfold from_relative_to_absolute.
  destruct (NumeralFacts.numeral_of_N n) as (Hd & Hn & Hv).
  change (String letter (Literal.string_of_int (Z.of_N n)))
    with (String letter "" ++ Literal.string_of_int (Z.of_N n)).
  rewrite (TextFacts.endswith_last_differs Text.is_digit _ _ "]" Hd Hn eq_refl).
  cbn [negb append Text.drop String.length].
  destruct (Literal.string_of_int (Z.of_N n)) as [| a s] eqn:E;
    [contradiction |].
  cbn [String.length Nat.ltb Nat.leb]. rewrite <- E.
  unfold int_of. rewrite NumeralFacts.int_of_string_of_int. reflexivity.
Qed.

(** C5: a relative component [R[d]] or [C[d]] needs an anchor cell, fails
    an assertion without one, and resolves to [(anchor + d - 1) mod MAX + 1]
    with [MAX] 1048576 for rows and 16384 for columns; an absolute component
    [R<n>] or [C<n>] resolves to [n] whatever the anchor.  With the anchor at
    row 5 and column 3, [R[2]C[2]] is row 7 and column 5, and [R2C2] is row
    2 and column 2 with or without an anchor. *)
Theorem r1c1_component_resolution :
  (forall (cell : Anchor.t) (d : Z),
     from_relative_to_absolute (Some cell) ("R[" ++ Literal.string_of_int d ++ "]")
       = Returned ((Anchor.row cell + d - 1) mod 1048576 + 1)
     /\ from_relative_to_absolute (Some cell) ("C[" ++ Literal.string_of_int d ++ "]")
       = Returned ((Anchor.col_idx cell + d - 1) mod 16384 + 1))
  /\ (forall d : Z,
        from_relative_to_absolute None ("R[" ++ Literal.string_of_int d ++ "]")
          = Raised AssertionError
        /\ from_relative_to_absolute None ("C[" ++ Literal.string_of_int d ++ "]")
          = Raised AssertionError)
  /\ (forall (cell : option Anchor.t) (n : N),
        from_relative_to_absolute cell ("R" ++ Literal.string_of_int (Z.of_N n))
          = Returned (Z.of_N n)
        /\ from_relative_to_absolute cell ("C" ++ Literal.string_of_int (Z.of_N n))
          = Returned (Z.of_N n))
  /\ (forall (excel : option Excel) (address : AddressCell.t) (sheet : string),
        range_boundaries "R[2]C[2]" (Some (Anchor.make 5 3 excel address)) sheet
          = Returned ((Some 5, Some 7, Some 5, Some 7), sheet))
  /\ (forall (cell : option Anchor.t) (sheet : string),
        range_boundaries "R2C2" cell sheet
          = Returned ((Some 2, Some 2, Some 2, Some 2), sheet))
  /\ (forall sheet : string,
        range_boundaries "R[2]C[2]" None sheet = Raised AssertionError).
Proof.
  refine (conj _ (conj _ (conj _ (conj _ (conj _ _))))).
  - intros cell d. split; apply (relative_component (Some cell)).
  - intros d. split; apply (relative_component None).
  - intros cell n. split; apply absolute_component.
  - intros excel address sheet. reflexivity.
  - intros cell sheet. destruct cell; reflexivity.
  - intros sheet. reflexivity.
Qed.

(** * Facts about the matcher *)

Module ReFacts.
Import Text.

Lemma consumed_append (a b : string) : consumed (a ++ b) b = a.
Proof.
  unfold consumed.
  rewrite TextFacts.length_append. replace (String.length a + String.length b - String.length b)%nat
    with (String.length a) by lia.
  induction a as [| c a IH]; simpl.
  - destruct b; reflexivity.
  - rewrite IH. reflexivity.
Qed.

Lemma shorter_tail (c : ascii) (s : string) :
  (String.length s <? String.length (String c s))%nat = true.
Proof. apply Nat.ltb_lt. simpl. lia. Qed.

(** [run (Char p)], unfolded. *)
Abbreviation char_body p :=
  (fun (pos : nat) (s : string) (caps : captures) (k : cont) =>
     match s with
     | "" => None
     | String c s' => if p c then k (S pos) s' caps else None
     end) (only parsing).

Lemma star_loop_char_step (p : ascii -> bool) (k : cont) (n pos : nat)
    (c : ascii) (s : string) (caps : captures) :
  star_loop (char_body p) k (S n) pos (String c s) caps
  = if p c
    then match star_loop (char_body p) k n (S pos) s caps with
         | Some r => Some r
         | None => k pos (String c s) caps
         end
    else k pos (String c s) caps.
Proof.
  cbn [star_loop]. destruct (p c); [rewrite shorter_tail |]; reflexivity.
Qed.

Lemma star_loop_char_stop (p : ascii -> bool) (k : cont) (n pos : nat)
    (s : string) (caps : captures) :
  stops p s = true ->
  star_loop (char_body p) k n pos s caps = k pos s caps.
Proof.
  intros H. destruct s as [| c s]; destruct n; cbn [star_loop];
    try reflexivity;
    simpl in H; apply negb_true_iff in H; rewrite H; reflexivity.
Qed.

(** A repeated character class takes every character of a run that ends
    where the class stops, when the continuation succeeds there. *)
Lemma star_char_greedy (p : ascii -> bool) (k : cont) (rest : string)
    (r : captures) (a : string) :
  forall n pos caps,
    (String.length a <= n)%nat ->
    forallb p a = true -> stops p rest = true ->
    k (pos + String.length a)%nat rest caps = Some r ->
    star_loop (char_body p) k n pos (a ++ rest) caps = Some r.
Proof.
  induction a as [| c a IH]; intros n pos caps Hn Ha Hrest Hk.
  - simpl in Hk. rewrite Nat.add_0_r in Hk. simpl append.
    rewrite star_loop_char_stop; assumption.
  - simpl in Ha. apply andb_true_iff in Ha. destruct Ha as [Hc Ha].
    destruct n as [| n]; [simpl in Hn; lia |].
    cbn [append]. rewrite star_loop_char_step, Hc.
    rewrite (IH n (S pos) caps);
      [reflexivity | simpl in Hn; lia | assumption | assumption |].
    rewrite <- Hk. f_equal. simpl. lia.
Qed.

(** A repeated character class that runs to the end of the text gives its
    last character back when the continuation fails at the end and
    succeeds one character before. *)
Lemma star_char_gives_back (p : ascii -> bool) (k : cont) (c : ascii)
    (r : captures) (a : string) :
  forall n pos caps,
    (S (String.length a) <= n)%nat ->
    forallb p a = true -> p c = true ->
    k (pos + S (String.length a))%nat "" caps = None ->
    k (pos + String.length a)%nat (String c "") caps = Some r ->
    star_loop (char_body p) k n pos (a ++ String c "") caps = Some r.
Proof.
  induction a as [| x a IH]; intros n pos caps Hn Ha Hc Hend Hk.
  - cbn [String.length append] in *. rewrite Nat.add_0_r in Hk.
    destruct n as [| n]; [lia |].
    rewrite star_loop_char_step, Hc.
    rewrite star_loop_char_stop by reflexivity.
    replace (pos + 1)%nat with (S pos) in Hend by lia.
    rewrite Hend. exact Hk.
  - simpl in Ha. apply andb_true_iff in Ha. destruct Ha as [Hx Ha].
    destruct n as [| n]; [simpl in Hn; lia |].
    cbn [append]. rewrite star_loop_char_step, Hx.
    rewrite (IH n (S pos) caps);
      [reflexivity | simpl in Hn; lia | assumption | assumption | |].
    + rewrite <- Hend. f_equal. simpl. lia.
    + rewrite <- Hk. f_equal. simpl. lia.
Qed.

(** Every text [name[selector]] has the shape of a table reference, and
    its groups are the name and the selector. *)
Lemma TABLE_REF_RE_shape (name selector : string) :
  name <> "" ->
  forallb (fun c => negb (Ascii.eqb c "[")) name = true ->
  forallb (fun c => negb (Ascii.eqb c newline)) selector = true ->
  rmatch TABLE_REF_RE (name ++ "[" ++ selector ++ "]")
  = Some [("table_selector", selector); ("table_name", name)].
Proof.
  intros Hne Hname Hsel. destruct name as [| x name]; [contradiction |].
  simpl in Hname. apply andb_true_iff in Hname. destruct Hname as [Hx Hname].
  unfold rmatch, TABLE_REF_RE, plus, none_of, any, lit.
  cbn [seq run append]. rewrite Hx.
  erewrite (star_char_greedy _ _ (String "[" (selector ++ "]")) _ name).
  - reflexivity.
  - rewrite TextFacts.length_append. lia.
  - exact Hname.
  - reflexivity.
  - cbn beta iota. rewrite Ascii.eqb_refl.
    match goal with
    | |- context [consumed ?X ?Y] =>
        replace (consumed X Y) with (String x name)
          by (symmetry;
              exact (consumed_append (String x name)
                       (String "[" (selector ++ "]"))))
    end.
    erewrite (star_char_gives_back _ _ "]" _ selector).
    + reflexivity.
    + rewrite TextFacts.length_append. simpl. lia.
    + exact Hsel.
    + reflexivity.
    + reflexivity.
    + cbn beta iota. rewrite Ascii.eqb_refl. cbn [String.eqb orb].
      rewrite consumed_append. reflexivity.
Qed.

End ReFacts.

(** * Structured table references *)

Lemma structured_reference_with_table
    (address name selector sheet sheet1 sheet2 : string) (m : captures)
    (cell : Anchor.t) (excel : Excel) (t0 : option Table) (tbl : Table)
    (c1 r1 c2 r2 : Z) :
  rmatch TABLE_REF_RE address = Some m ->
  group "table_name" m = Some name ->
  group "table_selector" m = Some selector ->
  Anchor.excel cell = Some excel ->
  table excel name sheet = (t0, sheet1) ->
  table excel name sheet1 = (Some tbl, sheet2) ->
  openpyxl_range_boundaries (ref tbl)
    = Returned (Some c1, Some r1, Some c2, Some r2) ->
  structured_reference_boundaries address (Some cell) sheet
  = ('(rows, start_col, end_col) <- selector_parts selector ;;
     '(min_row, max_row) <- selected_rows tbl r1 r2 cell rows ;;
     '(min_col_idx, max_col_idx) <- selected_columns tbl c1 c2 start_col end_col ;;
     row_span min_col_idx max_col_idx sheet2 min_row max_row).
Proof.
  intros Hm Hname Hsel Hx Ht1 Ht2 Hb.
  unfold structured_reference_boundaries.
  rewrite Hm, Hname, Hsel, Hx, Ht1, Ht2, Hb. reflexivity.
Qed.

Lemma table_reference_match (name selector : string) :
  table_name_ok name -> selector_ok selector ->
  rmatch TABLE_REF_RE (table_reference name selector)
  = Some [("table_selector", selector); ("table_name", name)].
Proof. intros [H1 H2] H3. apply ReFacts.TABLE_REF_RE_shape; assumption. Qed.

(** C6: in a table that spans the rows [r1] to [r2] and the columns [c1] to
    [c2], with [h] header rows and [t] totals rows, [#Headers] selects the
    top [h] rows, [#Totals] the bottom [t] rows, and [#Data], like the empty
    selector, the rows between; [#All] selects every row.  A selection with
    no row is rejected. *)
Theorem structured_row_keywords
    (name : string) (cell : Anchor.t) (excel : Excel) (t0 : option Table)
    (tbl : Table) (sheet sheet1 sheet2 : string) (c1 r1 c2 r2 : Z) :
  table_name_ok name ->
  Anchor.excel cell = Some excel ->
  table excel name sheet = (t0, sheet1) ->
  table excel name sheet1 = (Some tbl, sheet2) ->
  openpyxl_range_boundaries (ref tbl)
    = Returned (Some c1, Some r1, Some c2, Some r2) ->
  let h := row_count (headerRowCount tbl) in
  let t := row_count (totalsRowCount tbl) in
  let resolve selector :=
    structured_reference_boundaries (table_reference name selector)
      (Some cell) sheet in
  resolve "#Headers" = row_span c1 c2 sheet2 r1 (r1 + h - 1)
  /\ resolve "#Totals" = row_span c1 c2 sheet2 (r2 - t + 1) r2
  /\ resolve "#Data" = row_span c1 c2 sheet2 (r1 + h) (r2 - t)
  /\ resolve "" = row_span c1 c2 sheet2 (r1 + h) (r2 - t)
  /\ resolve "#All" = row_span c1 c2 sheet2 r1 r2.
Proof.
  intros Hn Hx Ht1 Ht2 Hb h t resolve. unfold resolve.
  repeat split;
    match goal with
    | |- structured_reference_boundaries (table_reference _ ?sel) _ _ = _ =>
        rewrite (structured_reference_with_table _ name sel sheet sheet1
                   sheet2 _ cell excel t0 tbl c1 r1 c2 r2
                   (table_reference_match name sel Hn eq_refl)
                   eq_refl eq_refl Hx Ht1 Ht2 Hb)
    end; reflexivity.
Qed.

(** The spec's example: one header row, one totals row, rows 1 to 10. *)
Lemma structured_row_keywords_witness :
  structured_reference_boundaries "T[#Headers]" (Some example_cell) ""
    = Returned (Some ((Some 1, Some 1, Some 3, Some 1), "Sheet1"))
  /\ structured_reference_boundaries "T[#Totals]" (Some example_cell) ""
    = Returned (Some ((Some 1, Some 10, Some 3, Some 10), "Sheet1"))
  /\ structured_reference_boundaries "T[#Data]" (Some example_cell) ""
    = Returned (Some ((Some 1, Some 2, Some 3, Some 9), "Sheet1")).
Proof.
  assert (N : table_name_ok "T") by (split; [discriminate | reflexivity]).
  pose proof (structured_row_keywords "T" example_cell example_excel
                (Some example_table) example_table "" "Sheet1" "Sheet1"
                1 1 3 10 N eq_refl eq_refl eq_refl eq_refl) as H.
  cbv zeta in H. destruct H as (H1 & H2 & H3 & _).
  refine (conj _ (conj _ _)).
  - exact H1.
  - exact H2.
  - exact H3.
Defined.

(** * The anchor cell *)

Lemma range_boundaries_absolute (address sheet : string)
    (cell : option Anchor.t) (b : boundaries) :
  openpyxl_range_boundaries address = Returned b ->
  has_none b = false \/ Text.contains ":" address = true ->
  range_boundaries address cell sheet = Returned (b, sheet).
Proof.
  intros Hb H. unfold range_boundaries. rewrite Hb.
  destruct H as [-> | ->]; [reflexivity |].
  rewrite orb_true_r. reflexivity.
Qed.

(** The absolute parser accepts no text with an opening bracket. *)
Module Bracket.
Import Text.








End Bracket.




(** * Cells against ranges *)

Lemma AddressCell_from_tuple_faults (c r : option Z) (sheet : string) :
  (exists x, AddressCell_from_tuple (c, r, c, r) sheet = Returned x)
  \/ AddressCell_from_tuple (c, r, c, r) sheet = Raised ValueError.
Proof.
  unfold AddressCell_from_tuple, corners_differ.
  assert (E : forall o, opt_eqb o o = true).
  { intros [x |]; simpl; [apply Z.eqb_refl | reflexivity]. }
  rewrite !E. cbn [andb negb]. rewrite orb_true_r. cbn [negb].
  destruct (or_zero c =? 0); cbn [bind]; [left; eexists; reflexivity |].
  unfold get_column_letter.
  destruct ((1 <=? or_zero c) && (or_zero c <=? 18278)); cbn [bind];
    [left; eexists; reflexivity | right; reflexivity].
Qed.

Lemma AddressRange_from_tuple_faults (b : boundaries) (sheet : string) :
  has_none b || corners_differ b = true ->
  (exists x, AddressRange_from_tuple b sheet = Returned x)
  \/ AddressRange_from_tuple b sheet = Raised ValueError.
Proof.
  intros H. unfold AddressRange_from_tuple. rewrite H. cbn [negb].
  destruct b as [[[c1 r1] c2] r2].
  destruct (AddressCell_from_tuple_faults c1 r1 sheet) as [[x ->] | ->];
    cbn [bind]; [| right; reflexivity].
  destruct (AddressCell_from_tuple_faults c2 r2 sheet) as [[y ->] | ->];
    cbn [bind]; [left; eexists; reflexivity | right; reflexivity].
Qed.

(** C10: whenever the text resolves to a range, that is, whenever
    [AddressRange.create] returns an [AddressRange] or the resolver's
    boundary tuple has a null entry or two different corners,
    [AddressCell.create] raises a [ValueError]; what [AddressCell.create]
    returns is always a cell. *)
Theorem AddressCell_create_rejects_ranges
    (address : address_arg) (sheet : string) (cell : option Anchor.t) :
  (forall r, AddressRange_create address sheet cell = Returned (Range r) ->
     AddressCell_create address sheet cell = Raised ValueError)
  /\ (forall a, AddressCell_create address sheet cell = Returned a ->
        is_cell a = true)
  /\ (forall s addr b sheetname sheetname',
        address = Text s ->
        split_sheetname s sheet = Returned (sheetname, addr) ->
        range_boundaries addr cell sheetname = Returned (b, sheetname') ->
        has_none b || corners_differ b = true ->
        AddressCell_create address sheet cell = Raised ValueError).
Proof.
  refine (conj _ (conj _ _)).
  - intros r H. unfold AddressCell_create. rewrite H. reflexivity.
  - intros a H. unfold AddressCell_create in H.
    destruct (AddressRange_create address sheet cell) as [x | e |];
      try discriminate.
    simpl in H. destruct (is_cell x) eqn:E; simpl in H; [| discriminate].
    injection H as <-. exact E.
  - intros s addr b sheetname sheetname' -> Hs Hb Hr.
    unfold AddressCell_create, AddressRange_create, AddressRange_create_text.
    rewrite Hs. cbn [bind]. rewrite Hb. cbn [bind]. rewrite Hr.
    destruct (AddressRange_from_tuple_faults b sheetname' Hr) as [[x ->] | ->];
      reflexivity.
Qed.

(** The range [A1:B2], a whole column, and the cell [B2]. *)
Lemma AddressCell_create_rejects_ranges_witness :
  AddressCell_create (Text "A1:B2") "" None = Raised ValueError
  /\ AddressCell_create (Text "Sheet1!C:C") "" None = Raised ValueError
  /\ is_cell (Cell (AddressCell.make "B2" "" 2 2 "B2")) = true.
Proof.
  refine (conj _ (conj _ _)).
  - exact (proj1 (AddressCell_create_rejects_ranges (Text "A1:B2") "" None)
             _ eq_refl).
  - exact (proj2 (proj2 (AddressCell_create_rejects_ranges (Text "Sheet1!C:C")
                           "" None))
             "Sheet1!C:C" "C:C" (Some 3, None, Some 3, None) "Sheet1" "Sheet1"
             eq_refl eq_refl eq_refl eq_refl).
  - exact (proj1 (proj2 (AddressCell_create_rejects_ranges (Text "B2") "" None))
             _ eq_refl).
Defined.

(** * Address texts read back *)

Module RoundTrip.
Import Text.

Lemma column_letters_check_all :
  List.forallb column_letters_check (List.map Z.of_nat (List.seq 1 (Z.to_nat 18278))) = true.
Proof. vm_compute. reflexivity. Qed.

Lemma column_letters_checked (c : Z) :
  1 <= c <= 18278 -> column_letters_check c = true.
Proof.
  intros H. pose proof column_letters_check_all as A.
  rewrite List.forallb_forall in A. apply A.
  apply List.in_map_iff. exists (Z.to_nat c). split; [lia |].
  apply List.in_seq. lia.
Qed.

Lemma column_letters_facts (c : Z) :
  1 <= c <= 18278 ->
  let letters := column_letters 3 c "" in
  forallb is_upper letters = true /\ letters <> ""
  /\ (String.length letters <= 3)%nat /\ column_index 0 letters = c.
Proof.
  intros H. pose proof (column_letters_checked c H) as E.
  unfold column_letters_check in E. cbv zeta in *.
  repeat (apply andb_true_iff in E; destruct E as [E ?]).
  repeat split.
  - assumption.
  - apply String.eqb_neq, negb_true_iff. assumption.
  - apply Nat.leb_le. assumption.
  - apply Z.eqb_eq. assumption.
Qed.

Lemma span_upto_append (n : nat) (p : ascii -> bool) (a rest : string) :
  forallb p a = true -> (String.length a <= n)%nat -> stops p rest = true ->
  span_upto n p (a ++ rest) = (a, rest).
Proof.
  revert n. induction a as [| c a IH]; intros n Ha Hn Hr.
  - simpl. destruct n, rest as [| x rest]; try reflexivity.
    simpl in *. apply negb_true_iff in Hr. rewrite Hr. reflexivity.
  - simpl in Ha, Hn. apply andb_true_iff in Ha. destruct Ha as [Hc Ha].
    destruct n as [| n]; [lia |]. simpl. rewrite Hc.
    rewrite (IH n Ha) by (assumption || lia). reflexivity.
Qed.

Lemma span_digits_append (a rest : string) :
  forallb is_digit a = true -> stops is_digit rest = true ->
  Literal.span_digits (a ++ rest) = (a, rest).
Proof.
  intros Ha Hr. induction a as [| c a IH].
  - simpl. destruct rest as [| x rest]; [reflexivity |].
    simpl in *. apply negb_true_iff in Hr. rewrite Hr. reflexivity.
  - simpl in Ha. apply andb_true_iff in Ha. destruct Ha as [Hc Ha].
    simpl. rewrite Hc, (IH Ha). reflexivity.
Qed.

Lemma upper_is_plain (c : ascii) :
  is_upper c = true ->
  is_alpha c = true /\ is_digit c = false /\ Ascii.eqb c "!" = false
  /\ Ascii.eqb c "$" = false /\ Ascii.eqb c ":" = false.
Proof.
  destruct c as [[] [] [] [] [] [] [] []]; try discriminate; intros _;
    repeat split; reflexivity.
Qed.

Lemma skip_dollar_id (p : ascii -> bool) (a rest : string) :
  forallb p a = true -> a <> "" -> p "$"%char = false ->
  skip_dollar (a ++ rest) = a ++ rest.
Proof.
  intros Ha Hn Hp. destruct a as [| c a]; [contradiction |].
  simpl in Ha. apply andb_true_iff in Ha. destruct Ha as [Hc _].
  simpl. destruct c as [[] [] [] [] [] [] [] []]; try reflexivity. congruence.
Qed.

Lemma stops_append (p q : ascii -> bool) (a rest : string) :
  forallb q a = true -> a <> "" -> (forall c, q c = true -> p c = false) ->
  stops p (a ++ rest) = true.
Proof.
  intros Ha Hn H. destruct a as [| c a]; [contradiction |].
  simpl in Ha. apply andb_true_iff in Ha. destruct Ha as [Hc _].
  simpl. rewrite (H c Hc). reflexivity.
Qed.

(** One corner read back: the letters of [c], the digits of [r], then
    something that is no digit. *)
Lemma absolute_corner_coordinate (c r : Z) (rest : string) :
  valid_coordinate c r -> stops is_digit rest = true ->
  absolute_corner (coordinate_text c r ++ rest) = (Some c, Some r, rest).
Proof.
  intros [Hc Hr] Hrest. unfold absolute_corner, coordinate_text.
  destruct (column_letters_facts c Hc) as (Hu & Hne & Hlen & Hidx).
  destruct (NumeralFacts.numeral_of_N (Z.to_N r)) as (Hd & Hdn & Hv).
  rewrite Z2N.id in Hd, Hdn, Hv by lia.
  set (L := column_letters 3 c "") in *.
  set (D := Literal.string_of_int r) in *.
  rewrite TextFacts.append_assoc.
  rewrite (skip_dollar_id is_upper L _ Hu Hne eq_refl).
  rewrite (span_upto_append 3 is_alpha L (D ++ rest)); try assumption.
  - rewrite (skip_dollar_id is_digit D _ Hd Hdn eq_refl).
    rewrite (span_digits_append D rest Hd Hrest).
    apply String.eqb_neq in Hne, Hdn. rewrite Hne, Hdn, Hidx, Hv. reflexivity.
  - revert Hu. apply TextFacts.forallb_impl. intros x Hx.
    apply (upper_is_plain x Hx).
  - apply (stops_append is_alpha is_digit D rest Hd Hdn).
    intros x Hx. apply (NumeralFacts.digit_is_plain x Hx).
Qed.

Lemma openpyxl_cell (c r : Z) :
  valid_coordinate c r ->
  openpyxl_range_boundaries (coordinate_text c r)
  = Returned (Some c, Some r, Some c, Some r).
Proof.
  intros H. unfold openpyxl_range_boundaries.
  rewrite <- (TextFacts.append_nil_r (coordinate_text c r)).
  rewrite (absolute_corner_coordinate c r "" H eq_refl). reflexivity.
Qed.

Lemma openpyxl_range (c1 r1 c2 r2 : Z) :
  valid_coordinate c1 r1 -> valid_coordinate c2 r2 ->
  openpyxl_range_boundaries (coordinate_text c1 r1 ++ ":" ++ coordinate_text c2 r2)
  = Returned (Some c1, Some r1, Some c2, Some r2).
Proof.
  intros H1 H2. unfold openpyxl_range_boundaries.
  change (":" ++ coordinate_text c2 r2)
    with (String ":" (coordinate_text c2 r2)).
  rewrite (absolute_corner_coordinate c1 r1
             (String ":" (coordinate_text c2 r2)) H1 eq_refl).
  rewrite <- (TextFacts.append_nil_r (coordinate_text c2 r2)).
  rewrite (absolute_corner_coordinate c2 r2 "" H2 eq_refl). reflexivity.
Qed.

(** The text left after a corner: nothing, or a colon and more. *)
Lemma separator_cases (rest : string) :
  stops (fun c => negb (Ascii.eqb c ":")) rest = true ->
  rest = "" \/ exists more, rest = String ":" more.
Proof.
  destruct rest as [| x more]; [left; reflexivity |].
  simpl. rewrite negb_involutive, Ascii.eqb_eq. intros ->.
  right. exists more. reflexivity.
Qed.

Lemma span_upto_stops (n : nat) (p : ascii -> bool) (s : string) :
  stops p s = true -> span_upto n p s = ("", s).
Proof.
  destruct n, s as [| c s]; try reflexivity.
  simpl. intros H. apply negb_true_iff in H. rewrite H. reflexivity.
Qed.

Lemma span_digits_stops (s : string) :
  stops is_digit s = true -> Literal.span_digits s = ("", s).
Proof.
  destruct s as [| c s]; [reflexivity |].
  simpl. intros H. apply negb_true_iff in H. rewrite H. reflexivity.
Qed.

(** A corner with letters only, as in a range of whole columns. *)
Lemma absolute_corner_column (c : Z) (rest : string) :
  1 <= c <= 18278 ->
  stops (fun x => negb (Ascii.eqb x ":")) rest = true ->
  absolute_corner (column_letters 3 c "" ++ rest) = (Some c, None, rest).
Proof.
  intros Hc Hrest. unfold absolute_corner.
  destruct (column_letters_facts c Hc) as (Hu & Hne & Hlen & Hidx).
  set (L := column_letters 3 c "") in *.
  assert (Ha : forallb is_alpha L = true).
  { revert Hu. apply TextFacts.forallb_impl. intros x Hx.
    apply (upper_is_plain x Hx). }
  rewrite (skip_dollar_id is_upper L _ Hu Hne eq_refl).
  apply String.eqb_neq in Hne.
  destruct (separator_cases rest Hrest) as [-> | [more ->]].
  - rewrite (span_upto_append 3 is_alpha L "" Ha Hlen eq_refl).
    cbn [skip_dollar Literal.span_digits]. rewrite Hne, Hidx. reflexivity.
  - rewrite (span_upto_append 3 is_alpha L (String ":" more) Ha Hlen eq_refl).
    cbn [skip_dollar].
    rewrite (span_digits_stops (String ":" more) eq_refl).
    rewrite Hne, Hidx. reflexivity.
Qed.

(** A corner with digits only, as in a range of whole rows. *)
Lemma absolute_corner_row (r : Z) (rest : string) :
  1 <= r ->
  stops (fun x => negb (Ascii.eqb x ":")) rest = true ->
  absolute_corner (Literal.string_of_int r ++ rest) = (None, Some r, rest).
Proof.
  intros Hr Hrest. unfold absolute_corner.
  destruct (NumeralFacts.numeral_of_N (Z.to_N r)) as (Hd & Hdn & Hv).
  rewrite Z2N.id in Hd, Hdn, Hv by lia.
  set (D := Literal.string_of_int r) in *.
  rewrite (skip_dollar_id is_digit D _ Hd Hdn eq_refl).
  rewrite span_upto_stops.
  - rewrite (skip_dollar_id is_digit D _ Hd Hdn eq_refl).
    apply String.eqb_neq in Hdn.
    destruct (separator_cases rest Hrest) as [-> | [more ->]].
    + rewrite (span_digits_append D "" Hd eq_refl), Hdn, Hv. reflexivity.
    + rewrite (span_digits_append D (String ":" more) Hd eq_refl), Hdn, Hv.
      reflexivity.
  - apply (stops_append is_alpha is_digit D rest Hd Hdn).
    intros x Hx. apply (NumeralFacts.digit_is_plain x Hx).
Qed.

Lemma openpyxl_columns (c1 c2 : Z) :
  1 <= c1 <= 18278 -> 1 <= c2 <= 18278 ->
  openpyxl_range_boundaries
    (column_letters 3 c1 "" ++ ":" ++ column_letters 3 c2 "")
  = Returned (Some c1, None, Some c2, None).
Proof.
  intros H1 H2. unfold openpyxl_range_boundaries.
  change (":" ++ column_letters 3 c2 "")
    with (String ":" (column_letters 3 c2 "")).
  rewrite (absolute_corner_column c1 (String ":" (column_letters 3 c2 ""))
             H1 eq_refl).
  rewrite <- (TextFacts.append_nil_r (column_letters 3 c2 "")).
  rewrite (absolute_corner_column c2 "" H2 eq_refl). reflexivity.
Qed.

Lemma openpyxl_rows (r1 r2 : Z) :
  1 <= r1 -> 1 <= r2 ->
  openpyxl_range_boundaries
    (Literal.string_of_int r1 ++ ":" ++ Literal.string_of_int r2)
  = Returned (None, Some r1, None, Some r2).
Proof.
  intros H1 H2. unfold openpyxl_range_boundaries.
  change (":" ++ Literal.string_of_int r2)
    with (String ":" (Literal.string_of_int r2)).
  rewrite (absolute_corner_row r1 (String ":" (Literal.string_of_int r2))
             H1 eq_refl).
  rewrite <- (TextFacts.append_nil_r (Literal.string_of_int r2)).
  rewrite (absolute_corner_row r2 "" H2 eq_refl). reflexivity.
Qed.

Lemma contains_separator (a b : string) : contains ":" (a ++ ":" ++ b) = true.
Proof.
  rewrite TextFacts.contains_append. unfold contains at 2. simpl.
  apply orb_true_r.
Qed.

Lemma column_no_bang (c : Z) :
  1 <= c <= 18278 -> contains "!" (column_letters 3 c "") = false.
Proof.
  intros Hc. destruct (column_letters_facts c Hc) as (Hu & _).
  apply (TextFacts.contains_false is_upper "!" _ Hu eq_refl).
Qed.

Lemma row_no_bang (r : Z) :
  1 <= r -> contains "!" (Literal.string_of_int r) = false.
Proof.
  intros Hr. destruct (NumeralFacts.numeral_of_N (Z.to_N r)) as (Hd & _).
  rewrite Z2N.id in Hd by lia.
  apply (TextFacts.contains_false is_digit "!" _ Hd eq_refl).
Qed.

Lemma AddressCell_from_tuple_column (c : Z) (sheet : string) :
  1 <= c <= 18278 ->
  AddressCell_from_tuple (Some c, None, Some c, None) sheet
  = Returned (AddressCell.make (format_address sheet (column_letters 3 c ""))
                sheet c 0 (column_letters 3 c "")).
Proof.
  intros Hc. unfold AddressCell_from_tuple, corners_differ, opt_eqb.
  rewrite Z.eqb_refl. cbn [has_none negb orb andb or_zero].
  unfold get_column_letter.
  replace (c =? 0) with false by (symmetry; apply Z.eqb_neq; lia).
  replace ((1 <=? c) && (c <=? 18278)) with true
    by (symmetry; apply andb_true_iff; split; apply Z.leb_le; lia).
  cbn [bind Z.eqb]. rewrite TextFacts.append_nil_r. reflexivity.
Qed.

Lemma AddressCell_from_tuple_row (r : Z) (sheet : string) :
  1 <= r ->
  AddressCell_from_tuple (None, Some r, None, Some r) sheet
  = Returned (AddressCell.make (format_address sheet (Literal.string_of_int r))
                sheet 0 r (Literal.string_of_int r)).
Proof.
  intros Hr. unfold AddressCell_from_tuple, corners_differ, opt_eqb.
  rewrite Z.eqb_refl. cbn [has_none negb orb andb or_zero Z.eqb bind].
  replace (r =? 0) with false by (symmetry; apply Z.eqb_neq; lia).
  reflexivity.
Qed.

Lemma coordinate_no_bang (c r : Z) :
  valid_coordinate c r -> contains "!" (coordinate_text c r) = false.
Proof.
  intros [Hc Hr]. unfold coordinate_text.
  destruct (column_letters_facts c Hc) as (Hu & _).
  destruct (NumeralFacts.numeral_of_N (Z.to_N r)) as (Hd & _).
  rewrite Z2N.id in Hd by lia.
  rewrite TextFacts.contains_append.
  rewrite (TextFacts.contains_false is_upper "!" _ Hu eq_refl).
  rewrite (TextFacts.contains_false is_digit "!" _ Hd eq_refl).
  reflexivity.
Qed.

Lemma split_sheetname_plain (sheet coordinate : string) :
  plain_sheet sheet -> contains "!" coordinate = false ->
  split_sheetname (format_address sheet coordinate) "" = Returned (sheet, coordinate).
Proof.
  intros [Hb Hq] Hc. unfold split_sheetname, format_address.
  destruct (String.eqb_spec sheet "") as [-> | N].
  - rewrite (TextFacts.split_first_none _ _ Hc). reflexivity.
  - change (sheet ++ "!" ++ coordinate) with (sheet ++ String "!" coordinate).
    rewrite (TextFacts.split_first_append _ _ _ Hb), Hc.
    unfold unquote_sheetname. unfold quote. rewrite Hq. cbn [String.eqb].
    rewrite andb_false_r. reflexivity.
Qed.

Lemma AddressCell_from_tuple_coordinate (c r : Z) (sheet : string) :
  valid_coordinate c r ->
  AddressCell_from_tuple (Some c, Some r, Some c, Some r) sheet
  = Returned (AddressCell.make (format_address sheet (coordinate_text c r))
                sheet c r (coordinate_text c r)).
Proof.
  intros [Hc Hr]. unfold AddressCell_from_tuple. cbn [has_none negb orb or_zero].
  unfold get_column_letter.
  replace (c =? 0) with false by (symmetry; apply Z.eqb_neq; lia).
  replace (r =? 0) with false by (symmetry; apply Z.eqb_neq; lia).
  replace ((1 <=? c) && (c <=? 18278)) with true
    by (symmetry; apply andb_true_iff; split; apply Z.leb_le; lia).
  reflexivity.
Qed.

Lemma corners_differ_iff (c1 r1 c2 r2 : Z) :
  corners_differ (Some c1, Some r1, Some c2, Some r2) = true
  <-> (c1, r1) <> (c2, r2).
Proof.
  unfold corners_differ, opt_eqb. rewrite negb_true_iff, andb_false_iff.
  rewrite !Z.eqb_neq. split.
  - intros [H | H] [= E1 E2]; contradiction.
  - intros H. destruct (Z.eq_dec c1 c2) as [-> | N]; [| left; exact N].
    right. intros ->. apply H. reflexivity.
Qed.

End RoundTrip.

(** C9: an address text in the form the addresses print is read by
    [create] into a value whose address is that text.  The forms are, after
    an optional plain sheet name and [!]: the letters of a column and the
    number of a row (a cell); two such coordinates of different cells around
    a colon (a range); two columns around a colon; two rows around a
    colon. *)
Theorem create_address_round_trip
    (sheet : string) (c1 r1 c2 r2 : Z) :
  plain_sheet sheet ->
  valid_coordinate c1 r1 -> valid_coordinate c2 r2 ->
  let create text :=
    AddressRange_create (Text (format_address sheet text)) "" None in
  let made coordinate c r :=
    AddressCell.make (format_address sheet coordinate) sheet c r coordinate in
  let range coordinate start end_ :=
    Range (AddressRange.make (format_address sheet coordinate) sheet
             start end_ coordinate) in
  let cell1 := coordinate_text c1 r1 in
  let cell2 := coordinate_text c2 r2 in
  let col1 := column_letters 3 c1 "" in
  let col2 := column_letters 3 c2 "" in
  let row1 := Literal.string_of_int r1 in
  let row2 := Literal.string_of_int r2 in
  create cell1 = Returned (Cell (made cell1 c1 r1))
  /\ ((c1, r1) <> (c2, r2) ->
      create (cell1 ++ ":" ++ cell2)
      = Returned (range (cell1 ++ ":" ++ cell2) (made cell1 c1 r1) (made cell2 c2 r2)))
  /\ create (col1 ++ ":" ++ col2)
     = Returned (range (col1 ++ ":" ++ col2) (made col1 c1 0) (made col2 c2 0))
  /\ create (row1 ++ ":" ++ row2)
     = Returned (range (row1 ++ ":" ++ row2) (made row1 0 r1) (made row2 0 r2)).
Proof.
  intros Hs H1 H2. cbv zeta.
  pose proof (RoundTrip.coordinate_no_bang c1 r1 H1) as B1.
  pose proof (RoundTrip.coordinate_no_bang c2 r2 H2) as B2.
  destruct H1 as [Hc1 Hr1], H2 as [Hc2 Hr2].
  pose proof (RoundTrip.column_no_bang c1 Hc1) as BC1.
  pose proof (RoundTrip.column_no_bang c2 Hc2) as BC2.
  pose proof (RoundTrip.row_no_bang r1 Hr1) as BR1.
  pose proof (RoundTrip.row_no_bang r2 Hr2) as BR2.
  unfold AddressRange_create, AddressRange_create_text.
  refine (conj _ (conj _ (conj _ _))).
  - rewrite (RoundTrip.split_sheetname_plain sheet _ Hs B1). cbn [bind].
    rewrite (range_boundaries_absolute _ _ None _
               (RoundTrip.openpyxl_cell c1 r1 (conj Hc1 Hr1)) (or_introl eq_refl)).
    cbn [bind has_none orb].
    replace (corners_differ (Some c1, Some r1, Some c1, Some r1)) with false
      by (symmetry; unfold corners_differ, opt_eqb; rewrite !Z.eqb_refl;
          reflexivity).
    rewrite (RoundTrip.AddressCell_from_tuple_coordinate c1 r1 sheet
               (conj Hc1 Hr1)).
    reflexivity.
  - intros Hne.
    rewrite (RoundTrip.split_sheetname_plain sheet _ Hs)
      by (rewrite !TextFacts.contains_append, B1, B2; reflexivity).
    cbn [bind].
    rewrite (range_boundaries_absolute _ _ None _
               (RoundTrip.openpyxl_range c1 r1 c2 r2 (conj Hc1 Hr1) (conj Hc2 Hr2))
               (or_introl eq_refl)).
    cbn [bind has_none orb].
    rewrite (proj2 (RoundTrip.corners_differ_iff c1 r1 c2 r2) Hne).
    unfold AddressRange_from_tuple. cbn [has_none orb negb].
    rewrite (proj2 (RoundTrip.corners_differ_iff c1 r1 c2 r2) Hne).
    cbn [negb].
    rewrite (RoundTrip.AddressCell_from_tuple_coordinate c1 r1 sheet
               (conj Hc1 Hr1)).
    rewrite (RoundTrip.AddressCell_from_tuple_coordinate c2 r2 sheet
               (conj Hc2 Hr2)).
    reflexivity.
  - rewrite (RoundTrip.split_sheetname_plain sheet _ Hs)
      by (rewrite !TextFacts.contains_append, BC1, BC2; reflexivity).
    cbn [bind].
    rewrite (range_boundaries_absolute _ _ None _
               (RoundTrip.openpyxl_columns c1 c2 Hc1 Hc2)
               (or_intror (RoundTrip.contains_separator _ _))).
    cbn [bind has_none orb].
    unfold AddressRange_from_tuple. cbn [has_none orb negb].
    rewrite (RoundTrip.AddressCell_from_tuple_column c1 sheet Hc1).
    rewrite (RoundTrip.AddressCell_from_tuple_column c2 sheet Hc2).
    reflexivity.
  - rewrite (RoundTrip.split_sheetname_plain sheet _ Hs)
      by (rewrite !TextFacts.contains_append, BR1, BR2; reflexivity).
    cbn [bind].
    rewrite (range_boundaries_absolute _ _ None _
               (RoundTrip.openpyxl_rows r1 r2 Hr1 Hr2)
               (or_intror (RoundTrip.contains_separator _ _))).
    cbn [bind has_none orb].
    unfold AddressRange_from_tuple. cbn [has_none orb negb].
    rewrite (RoundTrip.AddressCell_from_tuple_row r1 sheet Hr1).
    rewrite (RoundTrip.AddressCell_from_tuple_row r2 sheet Hr2).
    reflexivity.
Qed.

(** The cell [A1], the range [A1:B2], the columns [A:B] and the rows [1:2],
    on the sheet [Sheet1] and with no sheet. *)
Lemma create_address_round_trip_witness :
  (AddressRange_create (Text "Sheet1!A1") "" None
     = Returned (Cell (AddressCell.make "Sheet1!A1" "Sheet1" 1 1 "A1"))
   /\ AddressRange_create (Text "Sheet1!A1:B2") "" None
      = Returned (Range (AddressRange.make "Sheet1!A1:B2" "Sheet1"
                           (AddressCell.make "Sheet1!A1" "Sheet1" 1 1 "A1")
                           (AddressCell.make "Sheet1!B2" "Sheet1" 2 2 "B2")
                           "A1:B2"))
   /\ AddressRange_create (Text "Sheet1!A:B") "" None
      = Returned (Range (AddressRange.make "Sheet1!A:B" "Sheet1"
                           (AddressCell.make "Sheet1!A" "Sheet1" 1 0 "A")
                           (AddressCell.make "Sheet1!B" "Sheet1" 2 0 "B")
                           "A:B"))
   /\ AddressRange_create (Text "Sheet1!1:2") "" None
      = Returned (Range (AddressRange.make "Sheet1!1:2" "Sheet1"
                           (AddressCell.make "Sheet1!1" "Sheet1" 0 1 "1")
                           (AddressCell.make "Sheet1!2" "Sheet1" 0 2 "2")
                           "1:2")))
  /\ AddressRange_create (Text "XFD1048576") "" None
     = Returned (Cell (AddressCell.make "XFD1048576" "" 16384 1048576
                         "XFD1048576")).
Proof.
  assert (P1 : plain_sheet "Sheet1") by (split; reflexivity).
  assert (P0 : plain_sheet "") by (split; reflexivity).
  assert (V1 : valid_coordinate 1 1) by (unfold valid_coordinate; lia).
  assert (V2 : valid_coordinate 2 2) by (unfold valid_coordinate; lia).
  assert (V3 : valid_coordinate 16384 1048576)
    by (unfold valid_coordinate; lia).
  split.
  - pose proof (create_address_round_trip "Sheet1" 1 1 2 2 P1 V1 V2) as H.
    cbv zeta in H. destruct H as (H1 & H2 & H3 & H4).
    refine (conj H1 (conj (H2 _) (conj H3 H4))). discriminate.
  - exact (proj1 (create_address_round_trip "" 16384 1048576 1 1 P0 V3 V1)).
Defined.
